(** * zod-form: the form-state containers and their bound controls

    A shallow embedding of the two form abstractions of the repository:

    - [VariantB]: [src/components/ui/form.tsx], the self-contained [useForm]
      hook that owns schema validation and the error map;
    - [VariantA]: [src/app/with-mutation/_form.tsx], the [Form] component
      whose pending flag and error map are owned by an external mutation;
    - [HomePage]: the form declared in [src/app/page.tsx].

    JavaScript objects used as maps are [gmap string _]; a thrown exception
    is a value of [thrown]; a function that may throw returns [thrown + A];
    the calls made on the caller's callbacks are recorded in a list of
    [event]s, in program order. *)

From Stdlib Require Import ZArith String Ascii List Lia.
From Stdlib Require Floats.SpecFloat.
From stdpp Require Import base option list strings pretty gmap.

Local Open Scope string_scope.
Local Open Scope Z_scope.

(** ** The JavaScript primitives the forms rely on *)

Module JS.

(** A JavaScript string is a [string] whose characters are the code units
    below 256; the forms only inspect white space, signs, digits and
    letters of that range. *)

(** [WhiteSpace] and [LineTerminator] code units below 256: TAB, LF, VT, FF,
    CR, SP and NBSP. *)
Definition is_white_space (c : ascii) : bool :=
  let n := N_of_ascii c in
  ((9 <=? n) && (n <=? 13) || (n =? 32) || (n =? 160))%N.

(** The value of a decimal digit, when [c] is one. *)
Definition digit_of (c : ascii) : option Z :=
  let n := Z.of_N (N_of_ascii c) in
  if (48 <=? n) && (n <=? 57) then Some (n - 48) else None.

Definition is_digit (c : ascii) : bool :=
  match digit_of c with Some _ => true | None => false end.

(** [String.prototype.trimStart]. *)
Fixpoint trimStart (s : string) : string :=
  match s with
  | String c s' => if is_white_space c then trimStart s' else s
  | EmptyString => EmptyString
  end.

(** [String.prototype.trimEnd]. *)
Fixpoint trimEnd (s : string) : string :=
  match s with
  | String c s' =>
      match trimEnd s' with
      | EmptyString => if is_white_space c then EmptyString else String c EmptyString
      | r => String c r
      end
  | EmptyString => EmptyString
  end.

(** [String.prototype.trim]. *)
Definition trim (s : string) : string := trimEnd (trimStart s).

(** [String.prototype.toLowerCase] on one code unit below 256: the letters
    A-Z and the capital letters of U+00C0..U+00DE (U+00D7 is the
    multiplication sign) move up by 32. *)
Definition lower_char (c : ascii) : ascii :=
  let n := N_of_ascii c in
  if ((65 <=? n) && (n <=? 90)
      || (192 <=? n) && (n <=? 222) && negb (n =? 215))%N
  then ascii_of_N (n + 32) else c.

Fixpoint toLowerCase (s : string) : string :=
  match s with
  | String c s' => String (lower_char c) (toLowerCase s')
  | EmptyString => EmptyString
  end.

(** A Number as far as integer parsing produces one: [NaN]; [Int z], the
    double whose value is the integer [z]; the negative zero; and the two
    infinities. Every integer up to 2^53 in magnitude is the value of a
    double; beyond, only those with at most 53 significant bits are. *)
Inductive number :=
| NaN
| Int (z : Z)
| NegZero
| Infinity (negative : bool).

(** [Number.isNaN]. *)
Definition isNaN (n : number) : bool :=
  match n with NaN => true | _ => false end.

(** The mathematical value of a Number; [NaN] and the infinities have
    none. *)
Definition math_value (n : number) : option Z :=
  match n with
  | NaN => None
  | Int z => Some z
  | NegZero => Some 0
  | Infinity _ => None
  end.

(** The value of the double nearest to a positive integer [a], ties going
    to the even significand: [a] is cut to its 53 leading bits [q], and [q]
    goes one up when the bits cut off weigh more than half a unit of [q],
    or exactly half with [q] odd. The result may be 2^1024 or more, which
    no double holds. *)
Definition round_to_double (a : Z) : Z :=
  let e := Z.max 0 (Z.log2 a - 52) in
  let q := a / 2 ^ e in
  let r := a mod 2 ^ e in
  let q' := if (2 ^ e <? 2 * r) || ((2 * r =? 2 ^ e) && Z.odd q) then q + 1 else q in
  q' * 2 ^ e.

(** The Number for a mathematical integer: the nearest double, an infinity
    when that is out of range. *)
Definition Number_of_Z (z : Z) : number :=
  if z =? 0 then Int 0
  else
    let m := round_to_double (Z.abs z) in
    if 2 ^ 1024 <=? m then Infinity (z <? 0) else Int (Z.sgn z * m).

(** The longest prefix of [s] made of decimal digits, as digit values. *)
Fixpoint digits_prefix (s : string) : list Z :=
  match s with
  | String c s' =>
      match digit_of c with
      | Some d => d :: digits_prefix s'
      | None => []
      end
  | EmptyString => []
  end.

(** The integer that a sequence of decimal digits denotes. *)
Definition math_int (ds : list Z) : Z :=
  fold_left (fun acc d => 10 * acc + d) ds 0.

(** [parseInt(s, 10)]: skip leading white space, read an optional sign, then
    the longest run of decimal digits; [NaN] when that run is empty,
    otherwise the Number for the signed integer they denote. With radix 10
    no [0x] prefix is stripped. *)
Definition parseInt (s : string) : number :=
  let trimmed := trimStart s in
  let '(sign, rest) :=
    match trimmed with
    | String "-"%char r => (-1, r)
    | String "+"%char r => (1, r)
    | _ => (1, trimmed)
    end in
  match digits_prefix rest with
  | [] => NaN
  | ds =>
      let mathInt := math_int ds in
      if mathInt =? 0 then (if sign =? -1 then NegZero else Int 0)
      else Number_of_Z (sign * mathInt)
  end.

(** A value held by a form field: a string or a number. *)
Inductive value :=
| VStr (s : string)
| VNum (n : number).

(** A [ZodError], represented by the result of its [flatten()] method, the
    only thing the forms read from it. *)
Record ZodError := {
  formErrors : list string;
  fieldErrors : gmap string (list string);
}.

(** An [Error] object: a [ZodError] (which extends [Error]) or another
    [Error] with its message. *)
Inductive Error :=
| ZodErr (z : ZodError)
| Err (message : string).

(** What a [throw] can carry: an [Error], or a value that is not one. *)
Inductive thrown :=
| ThrowError (e : Error)
| ThrowValue (v : value).

(** [error instanceof z.ZodError]. *)
Definition instanceof_ZodError (e : thrown) : option ZodError :=
  match e with ThrowError (ZodErr z) => Some z | _ => None end.

(** [error instanceof Error]. *)
Definition instanceof_Error (e : thrown) : option Error :=
  match e with ThrowError e => Some e | ThrowValue _ => None end.

End JS.

(** ** What the two variants share *)

(** A form value map and a per-field error map. *)
Abbreviation values := (gmap string JS.value).
Abbreviation field_errors := (gmap string (list string)).

(** The calls a submission makes on its surroundings, in program order. *)
Inductive event :=
| PreventDefault                    (* event.preventDefault() *)
| OnSubmit (data : values)          (* the caller's submit handler is entered *)
| OnError (e : JS.Error)            (* the caller's error callback is entered *)
| Mutate (data : values)            (* mutate(data) of the external mutation *)
| ToastSuccess (data : values)      (* toast.success(JSON.stringify(data, null, 2)) *)
| ToastError (error : JS.Error).    (* toast.error(error.message) *)

(** How an awaited call ends. *)
Inductive outcome :=
| Resolved
| Thrown (e : JS.thrown).

(** A caller-supplied submit handler: the calls it makes and how it ends. *)
Definition handler := values -> list event * outcome.

(** A rendered element: its properties, each name once, and its text
    content; [Null] is a component returning [null]. Class names that do
    not depend on the field are left out, and so are the caller's
    properties where the component spreads them first, under the ones it
    computes. *)
Inductive rendered :=
| Null
| Element (attrs : list (string * string)) (body : option string).

(** The argument of a template literal or of [String()]: [undefined]
    prints as such. *)
Definition String_of (s : option string) : string :=
  match s with Some s => s | None => "undefined" end.

(** A run of [n] zeros. *)
Fixpoint zeros (n : nat) : string :=
  match n with
  | O => ""
  | S n => String "0" (zeros n)
  end.

(** The digits [Number::toString] prints for the double of value [a], a
    positive integer of [n] decimal digits: the significand [s] with the
    fewest digits [k] such that [s] followed by [n - k] zeros reads back as
    that double, the closest to [a] when two do, the even one when both
    are as close. Returned with the number of digits of the integer that
    [s] stands for, which is [n + 1] when [s] is rounded up to a power of
    ten. *)
Fixpoint shortest (fuel : nat) (k : Z) (a n : Z) : Z * Z :=
  match fuel with
  | O => (a, n)
  | S fuel =>
      let p := 10 ^ (n - k) in
      let lo := a / p in
      let hi := lo + 1 in
      let pick s := if s =? 10 ^ k then (1, n + 1) else (s, n) in
      match JS.round_to_double (lo * p) =? a, JS.round_to_double (hi * p) =? a with
      | true, true =>
          if (a - lo * p <? hi * p - a)
             || ((a - lo * p =? hi * p - a) && Z.even lo)
          then pick lo else pick hi
      | true, false => pick lo
      | false, true => pick hi
      | false, false => shortest fuel (k + 1) a n
      end
  end.

(** [Number::toString] on the double of value [a], a positive integer:
    the digits followed by zeros up to 21 digits, the exponent notation
    beyond. *)
Definition String_of_double (a : Z) : string :=
  let n := Z.of_nat (String.length (pretty a)) in
  let '(s, n) := shortest (Z.to_nat n) 1 a n in
  let digits := pretty s in
  if n <=? 21 then digits +:+ zeros (Z.to_nat n - String.length digits)
  else
    match digits with
    | String d EmptyString => String d ("e+" +:+ pretty (n - 1))
    | String d more => String d ("." +:+ more +:+ "e+" +:+ pretty (n - 1))
    | EmptyString => EmptyString
    end.

(** [String(n)] on a Number. An integer up to 2^53 in magnitude prints all
    its digits. *)
Definition String_of_number (n : JS.number) : string :=
  match n with
  | JS.NaN => "NaN"
  | JS.Int z =>
      if Z.abs z <=? 2 ^ 53 then pretty z
      else (if z <? 0 then "-" else "") +:+ String_of_double (Z.abs z)
  | JS.NegZero => "0"
  | JS.Infinity negative => if negative then "-Infinity" else "Infinity"
  end.

(** [String(value)] on a field value that may be [undefined]. *)
Definition String_of_value (v : option JS.value) : string :=
  match v with
  | None => "undefined"
  | Some (JS.VStr s) => s
  | Some (JS.VNum n) => String_of_number n
  end.

(** [String(error)] on an array of messages: [Array.prototype.join]. *)
Definition String_of_array (l : list string) : string := String.concat "," l.

(** [!name] on a string that may be [undefined]. *)
Definition falsy (s : option string) : bool :=
  match s with
  | None | Some EmptyString => true
  | Some _ => false
  end.

(** [!!error] on an error list that may be [undefined]: an array is truthy,
    even when it is empty. *)
Definition truthy {A} (error : option (list A)) : bool :=
  match error with Some _ => true | None => false end.

Definition string_of_bool (b : bool) : string := if b then "true" else "false".

(** Whether a list of properties names [k]. *)
Definition has_key (k : string) (props : list (string * string)) : bool :=
  existsb (fun kv => String.eqb k (fst kv)) props.

(** [{ ...base, ...over }]: the properties of [over], after those of
    [base] that [over] does not name. *)
Definition spread (base over : list (string * string)) : list (string * string) :=
  List.filter (fun kv => negb (has_key (fst kv) over)) base ++ over.

(** The rest of a destructuring, [{ a, b, ...props }]: the properties
    other than the ones taken out. *)
Definition rest_of (taken : list string) (props : list (string * string))
    : list (string * string) :=
  List.filter (fun kv => negb (existsb (String.eqb (fst kv)) taken)) props.

(** The [TypeError] of reading the property [prop] of [undefined]. *)
Definition read_of_undefined (prop : string) : JS.thrown :=
  JS.ThrowError
    (JS.Err ("Cannot read properties of undefined (reading '" +:+ prop +:+ "')")).

(** Sequencing of computations that may throw. *)
Definition and_then {A B} (m : JS.thrown + A) (k : A -> JS.thrown + B)
    : JS.thrown + B :=
  match m with
  | inl e => inl e
  | inr a => k a
  end.

Notation "'let*' x ':=' m 'in' k" := (and_then m (fun x => k))
  (at level 10, x name, m at level 100, k at level 200, only parsing).

(** ** Variant A: [src/app/with-mutation/_form.tsx] *)

Module VariantA.

(** The properties of [Form]; [None] is a property left [undefined]. *)
Record FormProps := {
  defaultValues : values;
  onSubmit : option handler;
  errors : option field_errors;
  isPending : option bool;
  isReset : option bool;
}.

(** [React.useState(defaultValues)] at mount: the initial value map. *)
Definition mount (p : FormProps) : values := defaultValues p.

(** [setData]: [setFormData((prev) => ({ ...prev, ...data }))]. The spread
    of [data] comes last, so its fields win: the left-biased union. *)
Definition setData (data prev : values) : values := data ∪ prev.

(** A finished run of the submission routine: the calls it made, the value
    map exposed once it has finished, and how its promise settled. *)
Record run := {
  calls : list event;
  exposed : values;
  settled : outcome;
}.

(** [handleSubmit]. [while_pending] lists the partial updates dispatched
    through [setData] while [await onSubmit(data)] is suspended. A handler
    that throws rejects the routine at the [await]. *)
Definition handleSubmit (p : FormProps) (while_pending : list values)
    (data : values) : run :=
  match onSubmit p with
  | None => {| calls := []; exposed := data; settled := Resolved |}
  | Some h =>
      let '(made, result) := h data in
      let current := fold_left (fun prev u => setData u prev) while_pending data in
      {| calls := PreventDefault :: OnSubmit data :: made;
         exposed := match result with
                    | Resolved =>
                        if default false (isReset p) then defaultValues p else current
                    | Thrown _ => current
                    end;
         settled := result |}
  end.

(** The value exposed through [FormContext]; [None] is the default [{}]. *)
Record FormContextValue := {
  ctx_data : values;
  ctx_errors : option field_errors;
  ctx_isPending : option bool;
}.

Definition provide (p : FormProps) (data : values) : FormContextValue :=
  {| ctx_data := data; ctx_errors := errors p; ctx_isPending := isPending p |}.

(** [FormFieldContext]; its default [{}] has every field [undefined]. *)
Record FormFieldContextValue := {
  name : option string;
  type : option string;
}.

Definition default_FormFieldContext : FormFieldContextValue :=
  {| name := None; type := None |}.

(** [FormItemContext]; its default [{}] has no [id]. *)
Record FormItemContextValue := { id : option string }.

Definition default_FormItemContext : FormItemContextValue := {| id := None |}.

(** The argument of the change handler: a raw string or a change event. *)
Inductive change_arg :=
| RawString (s : string)
| ChangeEvent (currentTarget_value : string).

(** [typeof event === 'string' ? event : event.currentTarget.value]. *)
Definition normalize (event : change_arg) : string :=
  match event with
  | RawString s => s
  | ChangeEvent v => v
  end.

(** The [onChange] that [FormField] hands to its render callback, as the
    state update it dispatches; [type] is the property after its default
    ['text'] has been applied. *)
Definition onChange (name type : string) (event : change_arg) (prev : values)
    : values :=
  let value := normalize event in
  setData
    {[ name :=
         if String.eqb type "number"
         then (if JS.isNaN (JS.parseInt value) then JS.VNum (JS.Int 0)
               else JS.VNum (JS.parseInt value))
         else JS.VStr value ]}
    prev.

(** What [FormField] provides to its subtree and passes to [render];
    [form] is [None] under the default [FormContext], whose [data] is
    [undefined], so that reading the field's value throws. *)
Definition FormField (name : string) (type : option string)
    (form : option FormContextValue)
    : JS.thrown
      + (FormFieldContextValue * (option JS.value * (change_arg -> values -> values))) :=
  let type := default "text" type in
  match form with
  | None => inl (read_of_undefined name)
  | Some form =>
      inr ({| name := Some name; type := Some type |},
           (ctx_data form !! name, onChange name type))
  end.

(** The field binding [useFormField] returns. *)
Record field := {
  f_name : string;
  f_type : option string;
  f_id : option string;
  f_error : option (list string);
  formItemId : string;
  formDescriptionId : string;
  formMessageId : string;
}.

Definition misuse : JS.thrown :=
  JS.ThrowError (JS.Err "useFormField should be used within <FormField>").

(** [useFormField]. *)
Definition useFormField (fieldContext : FormFieldContextValue)
    (itemContext : FormItemContextValue) (form : option FormContextValue)
    : JS.thrown + field :=
  if falsy (name fieldContext) then inl misuse
  else
    let id := id itemContext in
    inr {| f_name := String_of (name fieldContext);
           f_type := type fieldContext;
           f_id := id;
           f_error := match form with
                      | Some {| ctx_errors := Some errors |} =>
                          errors !! String_of (name fieldContext)
                      | _ => None
                      end;
           formItemId := String_of id +:+ "-form-item";
           formDescriptionId := String_of id +:+ "-form-item-description";
           formMessageId := String_of id +:+ "-form-item-message" |}.

Section Controls.
Variable fieldContext : FormFieldContextValue.
Variable itemContext : FormItemContextValue.
Variable form : option FormContextValue.

(** [aria-describedby] of the control. *)
Definition describedby (f : field) : string :=
  if negb (truthy (f_error f)) then formDescriptionId f
  else formDescriptionId f +:+ " " +:+ formMessageId f.

(** The components of Variant A spread the caller's properties last, over
    the ones they compute: a property of the caller replaces the computed
    one of the same name. [props] is what the caller passes. *)
Definition FormLabel (props : list (string * string)) : JS.thrown + rendered :=
  let* f := useFormField fieldContext itemContext form in
  inr (Element
         (spread [("data-slot", "form-label"); ("htmlFor", formItemId f);
                  ("className", if truthy (f_error f) then "text-destructive" else "")]
                 (rest_of ["className"] props))
         None).

(** [type] is left out when the field context has none. *)
Definition FormControl (props : list (string * string)) : JS.thrown + rendered :=
  let* f := useFormField fieldContext itemContext form in
  inr (Element
         (spread ([("data-slot", "form-control"); ("id", formItemId f);
                   ("name", f_name f)]
                  ++ match f_type f with Some t => [("type", t)] | None => [] end
                  ++ [("aria-describedby", describedby f);
                      ("aria-invalid", string_of_bool (truthy (f_error f)))])
                 (rest_of ["className"; "asChild"] props))
         None).

Definition FormDescription (props : list (string * string)) : JS.thrown + rendered :=
  let* f := useFormField fieldContext itemContext form in
  inr (Element
         (spread [("data-slot", "form-description"); ("id", formDescriptionId f)]
                 (rest_of ["className"] props))
         None).

(** [error ? String(error) : children], then [null] when that is falsy. *)
Definition FormMessage (props : list (string * string)) (children : option string)
    : JS.thrown + rendered :=
  let* f := useFormField fieldContext itemContext form in
  let body := match f_error f with
              | Some e => Some (String_of_array e)
              | None => children
              end in
  inr (if falsy body then Null
       else Element
              (spread [("data-slot", "form-message"); ("id", formMessageId f)]
                      (rest_of ["className"; "children"] props))
              body).
End Controls.

(** [FormItem]: the context it provides, from the identifier that
    [React.useId()] generated, and its [fieldset], disabled by the pending
    flag of the form unless the caller's properties say otherwise; under
    the default [FormContext] the flag is [undefined]. *)
Definition FormItem (useId : string) (form : option FormContextValue)
    (props : list (string * string)) : FormItemContextValue * rendered :=
  ({| id := Some useId |},
   Element (spread (("data-slot", "form-item")
                    :: match form with
                       | Some {| ctx_isPending := Some b |} =>
                           [("disabled", string_of_bool b)]
                       | _ => []
                       end)
                   (rest_of ["className"] props))
           None).

End VariantA.

(** ** Variant B: [src/components/ui/form.tsx] *)

Module VariantB.

(** The argument of [useForm]; [schema] is [schema.parse], which returns the
    parsed value map or throws. *)
Record useFormProps := {
  schema : values -> JS.thrown + values;
  defaultValues : values;
  onSubmit : handler;
  onError : option (JS.Error -> list event);
}.

(** The state [useForm] holds and returns. *)
Record form := {
  formData : values;
  errors : field_errors;
  isPending : bool;
}.

(** The first render: [useState(defaultValues)], [useState({})], and no
    transition running. *)
Definition mount (p : useFormProps) : form :=
  {| formData := defaultValues p; errors := ∅; isPending := false |}.

(** [setValue]: [setFormData((prev) => ({ ...prev, [name]: value }))]. *)
Definition setValue (name : string) (value : JS.value) (st : form) : form :=
  {| formData := <[name := value]> (formData st);
     errors := errors st;
     isPending := isPending st |}.

(** [setErrors]. *)
Definition setErrors (e : field_errors) (st : form) : form :=
  {| formData := formData st; errors := e; isPending := isPending st |}.

(** The [try] block of [handleSubmit]: the calls made, and the exception
    that leaves the block, if any. *)
Definition try_block (p : useFormProps) (formData : values)
    : list event * (JS.thrown + unit) :=
  match schema p formData with
  | inl error => ([], inl error)
  | inr parsedData =>
      let '(calls, result) := onSubmit p parsedData in
      (OnSubmit parsedData :: calls,
       match result with
       | Resolved => inr tt
       | Thrown error => inl error
       end)
  end.

(** [handleSubmit], run to the end of its transition: the calls made and the
    state exposed afterwards. *)
Definition handleSubmit (p : useFormProps) (st : form) : list event * form :=
  let '(calls, result) := try_block p (formData st) in
  match result with
  | inr _ => (PreventDefault :: calls, st)
  | inl error =>
      match JS.instanceof_ZodError error with
      | Some z => (PreventDefault :: calls, setErrors (JS.fieldErrors z) st)
      | None =>
          match JS.instanceof_Error error, onError p with
          | Some e, Some onError =>
              (PreventDefault :: calls ++ OnError e :: onError e, st)
          | _, _ => (PreventDefault :: calls, st)
          end
      end
  end.

(** [FormFieldContext]; its default [{}] has no [name]. *)
Record FormFieldContextValue := { name : option string }.

Definition default_FormFieldContext : FormFieldContextValue := {| name := None |}.

(** [FormItemContext]; its default [{}] has no [id]. *)
Record FormItemContextValue := { id : option string }.

Definition default_FormItemContext : FormItemContextValue := {| id := None |}.

(** The field binding [useFormField] returns. *)
Record field := {
  f_id : option string;
  f_name : string;
  f_value : option JS.value;
  f_setValue : JS.value -> form -> form;
  f_error : option (list string);
  formItemId : string;
  formDescriptionId : string;
  formMessageId : string;
}.

Definition misuse : JS.thrown :=
  JS.ThrowError (JS.Err "useFormField should be used within <FormField>").

(** [useFormField]; [form] is [None] under the default [FormContext], whose
    [formData] is [undefined], so that reading a field of it throws. *)
Definition useFormField (fieldContext : FormFieldContextValue)
    (itemContext : FormItemContextValue) (form : option form)
    : JS.thrown + field :=
  if falsy (name fieldContext) then inl misuse
  else
    let id := id itemContext in
    let name := String_of (name fieldContext) in
    match form with
    | None => inl (read_of_undefined name)
    | Some form =>
        inr {| f_id := id;
               f_name := name;
               f_value := formData form !! name;
               f_setValue := setValue name;
               f_error := errors form !! name;
               formItemId := String_of id +:+ "-form-item";
               formDescriptionId := String_of id +:+ "-form-item-description";
               formMessageId := String_of id +:+ "-form-item-message" |}
    end.

(** [FormField]: what it provides to the subtree [render()] builds. *)
Definition FormField {A} (name : option string) (render : option A)
    : JS.thrown + (FormFieldContextValue * A) :=
  match render with
  | None =>
      inl (JS.ThrowError
             (JS.Err "FormField requires a render prop to display field content"))
  | Some r => inr ({| name := name |}, r)
  end.

Section Controls.
Variable fieldContext : FormFieldContextValue.
Variable itemContext : FormItemContextValue.
Variable form : option form.

(** [aria-describedby] of the control. *)
Definition describedby (f : field) : string :=
  if negb (truthy (f_error f)) then formDescriptionId f
  else formDescriptionId f +:+ " " +:+ formMessageId f.

Definition FormLabel : JS.thrown + rendered :=
  let* f := useFormField fieldContext itemContext form in
  inr (Element [("data-slot", "form-label"); ("htmlFor", formItemId f);
                ("className", if truthy (f_error f) then "text-destructive" else "")]
               None).

Definition FormControl : JS.thrown + rendered :=
  let* f := useFormField fieldContext itemContext form in
  inr (Element [("data-slot", "form-control"); ("id", formItemId f);
                ("name", f_name f); ("value", String_of_value (f_value f));
                ("aria-describedby", describedby f);
                ("aria-invalid", string_of_bool (truthy (f_error f)))]
               None).

(** The [onChange] of the control: [setValue(event.currentTarget.value)]. *)
Definition FormControl_onChange (currentTarget_value : string) (st : VariantB.form)
    : JS.thrown + VariantB.form :=
  let* f := useFormField fieldContext itemContext form in
  inr (f_setValue f (JS.VStr currentTarget_value) st).

Definition FormDescription : JS.thrown + rendered :=
  let* f := useFormField fieldContext itemContext form in
  inr (Element [("data-slot", "form-description"); ("id", formDescriptionId f)]
               None).

(** [error ? String(error) : children], then [null] when that is falsy. *)
Definition FormMessage (children : option string) : JS.thrown + rendered :=
  let* f := useFormField fieldContext itemContext form in
  let body := match f_error f with
              | Some e => Some (String_of_array e)
              | None => children
              end in
  inr (if falsy body then Null
       else Element [("data-slot", "form-message"); ("id", formMessageId f)] body).
End Controls.

(** [FormItem]: the context it provides, from the identifier that
    [React.useId()] generated, and its [fieldset], disabled by the pending
    flag of the form; under the default [FormContext] the flag is
    [undefined]. *)
Definition FormItem (useId : string) (form : option form)
    : FormItemContextValue * rendered :=
  ({| id := Some useId |},
   Element (("data-slot", "form-item")
            :: match form with
               | Some form => [("disabled", string_of_bool (isPending form))]
               | None => []
               end)
           None).

End VariantB.

(** ** The schema library, as far as [src/app/page.tsx] uses it *)

Module Zod.

(** A property validator: the messages of its issues, or the parsed value. *)
Definition validator := option JS.value -> list string + JS.value.

(** [z.string().min(n)], with the library's default messages. A value
    that is not a string is an [invalid_type] issue and the length check
    is not reached. *)
Definition string_min (n : nat) : validator := fun v =>
  match v with
  | None => inl ["Required"]
  | Some (JS.VNum JS.NaN) => inl ["Expected string, received nan"]
  | Some (JS.VNum _) => inl ["Expected string, received number"]
  | Some (JS.VStr s) =>
      if (String.length s <? n)%nat
      then inl ["String must contain at least " +:+ pretty n +:+ " character(s)"]
      else inr (JS.VStr s)
  end.

(** The issues of an object against a shape, as (property, message). *)
Fixpoint issues (shape : list (string * validator)) (data : values)
    : list (string * string) :=
  match shape with
  | [] => []
  | (k, check) :: shape' =>
      match check (data !! k) with
      | inl msgs => map (pair k) msgs ++ issues shape' data
      | inr _ => issues shape' data
      end
  end.

(** The parsed object: the properties of the shape, unknown ones stripped. *)
Fixpoint parsed (shape : list (string * validator)) (data : values) : values :=
  match shape with
  | [] => ∅
  | (k, check) :: shape' =>
      match check (data !! k) with
      | inr v => <[k := v]> (parsed shape' data)
      | inl _ => parsed shape' data
      end
  end.

(** [ZodError.flatten().fieldErrors]: the messages of each property, in
    the order of the issues. *)
Definition flatten (l : list (string * string)) : field_errors :=
  fold_right (fun '(k, msg) acc => <[k := msg :: default [] (acc !! k)]> acc) ∅ l.

(** [z.object(shape).parse(data)]. *)
Definition object (shape : list (string * validator)) (data : values)
    : JS.thrown + values :=
  match issues shape data with
  | [] => inr (parsed shape data)
  | l => inl (JS.ThrowError (JS.ZodErr
                {| JS.formErrors := [];
                   JS.fieldErrors := flatten l |}))
  end.

End Zod.

(** ** The form of [src/app/page.tsx] *)

Module HomePage.

Definition defaultValues : values :=
  {[ "title" := JS.VStr ""; "content" := JS.VStr "" ]}.

Definition schema : values -> JS.thrown + values :=
  Zod.object
    [("title", Zod.string_min 1); ("content", Zod.string_min 1)].

(** Calling [toLowerCase] on a title that is not a string is a
    [TypeError]; the schema rules it out. *)
Definition onSubmit : handler := fun data =>
  match data !! "title" with
  | Some (JS.VStr title) =>
      if String.eqb (JS.trim (JS.toLowerCase title)) "hello"
      then ([], Thrown (JS.ThrowError (JS.Err "Title is invalid")))
      else ([ToastSuccess data], Resolved)
  | Some (JS.VNum _) =>
      ([], Thrown (JS.ThrowError (JS.Err "data.title.toLowerCase is not a function")))
  | None =>
      ([], Thrown (JS.ThrowError
         (JS.Err "Cannot read properties of undefined (reading 'toLowerCase')")))
  end.

Definition onError (error : JS.Error) : list event :=
  [ToastError error].

Definition props : VariantB.useFormProps :=
  {| VariantB.schema := schema;
     VariantB.defaultValues := defaultValues;
     VariantB.onSubmit := onSubmit;
     VariantB.onError := Some onError |}.

End HomePage.


(** ** The form of [src/app/with-mutation/page.client.tsx] *)

Module CreatePostPage.

Definition defaultValues : values :=
  {[ "title" := JS.VStr ""; "content" := JS.VStr "";
     "category" := JS.VStr ""; "price" := JS.VNum (JS.Int 0) ]}.

(** [mutate] starts the mutation and returns at once. *)
Definition mutate : handler := fun data => ([Mutate data], Resolved).

(** The properties of the form; [error] and [isPending] are the state of
    the mutation, and only a [ZodError] is shown on the fields. *)
Definition props (error : option JS.thrown) (isPending : bool) : VariantA.FormProps :=
  {| VariantA.defaultValues := defaultValues;
     VariantA.onSubmit := Some mutate;
     VariantA.errors := JS.fieldErrors <$> (error ≫= JS.instanceof_ZodError);
     VariantA.isPending := Some isPending;
     VariantA.isReset := None |}.

End CreatePostPage.

(** ** Vocabulary of the statements *)

(** Every character of [s] satisfies [P]. *)
Fixpoint all_chars (P : ascii -> bool) (s : string) : bool :=
  match s with
  | String c s' => P c && all_chars P s'
  | EmptyString => true
  end.

(** [s] is not empty and its first character satisfies [P]. *)
Definition starts_with (P : ascii -> bool) (s : string) : bool :=
  match s with
  | String c _ => P c
  | EmptyString => false
  end.

(** The integer that a string of decimal digits denotes, by position: each
    digit counts for its value times the power of ten of its rank. *)
Fixpoint decimal (s : string) : Z :=
  match s with
  | String c s' =>
      (Z.of_N (N_of_ascii c) - 48) * 10 ^ Z.of_nat (String.length s') + decimal s'
  | EmptyString => 0
  end.

(** The factor a sign prefix stands for. *)
Definition signum (sign : string) : Z := if String.eqb sign "-" then -1 else 1.

(** Typing a title and a content in the form of [src/app/page.tsx]. *)
Definition type_in (title content : string) (st : VariantB.form) : VariantB.form :=
  VariantB.setValue "content" (JS.VStr content)
    (VariantB.setValue "title" (JS.VStr title) st).

(** The state of that form after a first submission of its empty defaults,
    then typing a title and a content. *)
Definition after_failed_submit_and_edit (title content : string) : VariantB.form :=
  type_in title content
    (snd (VariantB.handleSubmit HomePage.props (VariantB.mount HomePage.props))).

(** What a user can do to a form of Variant B: change a field or submit. *)
Inductive step (p : VariantB.useFormProps) : VariantB.form -> VariantB.form -> Prop :=
| step_setValue name value st :
    step p st (VariantB.setValue name value st)
| step_submit st :
    step p st (snd (VariantB.handleSubmit p st)).

(** The states a form of Variant B goes through after mounting. *)
Inductive reachable (p : VariantB.useFormProps) : VariantB.form -> Prop :=
| reachable_mount : reachable p (VariantB.mount p)
| reachable_step st st' : reachable p st -> step p st st' -> reachable p st'.


(** The form of the mutation page with its submit handler and its
    reset-on-submit option replaced. *)
Definition CreatePostPage_with (onSubmit : option handler) (isReset : option bool)
    : VariantA.FormProps :=
  {| VariantA.defaultValues := CreatePostPage.defaultValues;
     VariantA.onSubmit := onSubmit;
     VariantA.errors := None;
     VariantA.isPending := Some false;
     VariantA.isReset := isReset |}.

(** The value map of the mutation page once a title has been typed. *)
Definition title_typed : values :=
  VariantA.onChange "title" "text" (VariantA.ChangeEvent "a")
    (VariantA.mount (CreatePostPage.props None false)).

(** The value of the attribute [k] of a rendered element, when the
    component rendered one and gave it that attribute. *)
Fixpoint assoc (k : string) (l : list (string * string)) : option string :=
  match l with
  | [] => None
  | (k', v) :: l' => if String.eqb k k' then Some v else assoc k l'
  end.

Definition attr (k : string) (r : JS.thrown + rendered) : option string :=
  match r with
  | inr (Element attrs _) => assoc k attrs
  | _ => None
  end.

(** The text a component rendered, when it rendered an element with one. *)
Definition text (r : JS.thrown + rendered) : option string :=
  match r with
  | inr (Element _ body) => body
  | _ => None
  end.

(** A string without the sign it may start with. *)
Definition unsigned (s : string) : string :=
  match s with
  | String "+"%char r | String "-"%char r => r
  | _ => s
  end.

(** The form of the home page with its schema, its submit handler and its
    error callback replaced. *)
Definition HomePage_with (schema : values -> JS.thrown + values) (onSubmit : handler)
    (onError : option (JS.Error -> list event)) : VariantB.useFormProps :=
  {| VariantB.schema := schema;
     VariantB.defaultValues := HomePage.defaultValues;
     VariantB.onSubmit := onSubmit;
     VariantB.onError := onError |}.

(** A submit handler that validates on its own and rejects the content. *)
Definition rejects_content : handler := fun _ =>
  ([], Thrown (JS.ThrowError (JS.ZodErr
     {| JS.formErrors := []; JS.fieldErrors := {[ "content" := ["Too short"] ]} |}))).


(** What the message of a field shows: the messages of the field's error,
    joined by commas, whatever the fallback content; the fallback content
    when the field has no error; and nothing at all when there is neither,
    or when the error is an empty list, fallback or not. *)
Definition shows (message : option string -> JS.thrown + rendered)
    (error : option (list string)) : Prop :=
  (error = Some [] -> forall children, message children = inr Null) /\
  (forall m msgs, error = Some (m :: msgs) -> m <> "" ->
     forall children, text (message children) = Some (String.concat "," (m :: msgs))) /\
  (error = None ->
     message None = inr Null /\ message (Some "") = inr Null /\
     forall children, children <> "" -> text (message (Some children)) = Some children).

(** A field of the home page is filled when it holds a string that is not
    empty. *)
Definition filled (v : option JS.value) : bool :=
  match v with
  | Some (JS.VStr (String _ _)) => true
  | _ => false
  end.

(** The caller's properties [props] leave the properties named [keys] to
    the component: they name none of them. *)
Definition leaves (keys : list string) (props : list (string * string)) : Prop :=
  Forall (fun k => assoc k props = None) keys.


(** The Number that a binary64 float of the library's IEEE 754 model
    stands for, when its value is an integer. *)
Definition number_of_float (f : SpecFloat.spec_float) : JS.number :=
  match f with
  | SpecFloat.S754_zero negative => if negative then JS.NegZero else JS.Int 0
  | SpecFloat.S754_infinity negative => JS.Infinity negative
  | SpecFloat.S754_nan => JS.NaN
  | SpecFloat.S754_finite negative m e =>
      JS.Int ((if negative then -1 else 1)
              * (if 0 <=? e then Z.pos m * 2 ^ e else Z.pos m / 2 ^ (- e)))
  end.

(** The library's rounding of an integer to binary64: 53 bits of
    precision, exponents below 1024, ties to even. *)
Definition binary64_of_Z (z : Z) : JS.number :=
  number_of_float (SpecFloat.binary_normalize 53 1024 z 0 false).

(** ** Integer parsing *)

Section ParseInt.

Import JS.

Lemma digit_of_is_digit c :
  is_digit c = true -> digit_of c = Some (Z.of_N (N_of_ascii c) - 48).
Proof.
  unfold is_digit, digit_of.
  destruct (_ && _); [reflexivity | discriminate].
Qed.

Lemma digit_not_white_space c : is_digit c = true -> is_white_space c = false.
Proof.
  unfold is_digit, digit_of, is_white_space.
  destruct (_ && _) eqn:E; [| discriminate]. intros _.
  apply andb_true_iff in E as [E1 E2].
  apply Z.leb_le in E1. apply Z.leb_le in E2.
  repeat match goal with
         | |- (_ || _)%bool = false => apply orb_false_iff; split
         | |- (_ && _)%bool = false => apply andb_false_iff; right
         end;
    first [apply N.leb_gt | apply N.eqb_neq]; lia.
Qed.

Lemma digit_not_sign c : is_digit c = true -> c <> "-"%char /\ c <> "+"%char.
Proof.
  intros H; split; intros ->; vm_compute in H; discriminate.
Qed.

Lemma trimStart_white_space ws s :
  all_chars is_white_space ws = true -> trimStart (ws +:+ s) = trimStart s.
Proof.
  induction ws as [| c ws IH]; simpl; [reflexivity |].
  intros [Hc Hws]%andb_true_iff. rewrite Hc. auto.
Qed.

Lemma trimStart_id s : starts_with is_white_space s = false -> trimStart s = s.
Proof.
  destruct s as [| c s]; simpl; [reflexivity |]. intros ->. reflexivity.
Qed.

Lemma digits_prefix_app ds rest :
  all_chars is_digit ds = true -> starts_with is_digit rest = false ->
  digits_prefix (ds +:+ rest)
  = map (fun c => Z.of_N (N_of_ascii c) - 48) (list_ascii_of_string ds).
Proof.
  intros Hds Hrest. induction ds as [| c ds IH]; simpl in *.
  - destruct rest as [| c rest]; simpl in *; [reflexivity |].
    unfold is_digit in Hrest. destruct (digit_of c); [discriminate | reflexivity].
  - apply andb_true_iff in Hds as [Hc Hds].
    rewrite (digit_of_is_digit _ Hc), IH by assumption. reflexivity.
Qed.

Lemma math_int_acc ds acc :
  fold_left (fun acc d => 10 * acc + d)
    (map (fun c => Z.of_N (N_of_ascii c) - 48) (list_ascii_of_string ds)) acc
  = acc * 10 ^ Z.of_nat (String.length ds) + decimal ds.
Proof.
  revert acc. induction ds as [| c ds IH]; intros acc; simpl fold_left; simpl map.
  - simpl. lia.
  - cbn [list_ascii_of_string map fold_left String.length decimal].
    rewrite IH, Nat2Z.inj_succ, Z.pow_succ_r by lia. ring.
Qed.

Lemma math_int_decimal ds :
  math_int (map (fun c => Z.of_N (N_of_ascii c) - 48) (list_ascii_of_string ds))
  = decimal ds.
Proof. unfold math_int. rewrite math_int_acc. lia. Qed.

(** What [parseInt] returns on white space, a sign, digits and a rest. *)
Lemma parseInt_split ws sign ds rest :
  all_chars is_white_space ws = true ->
  sign = "" \/ sign = "+" \/ sign = "-" ->
  all_chars is_digit ds = true -> ds <> "" ->
  starts_with is_digit rest = false ->
  parseInt (ws +:+ sign +:+ ds +:+ rest)
  = if decimal ds =? 0 then (if String.eqb sign "-" then NegZero else Int 0)
    else Number_of_Z (signum sign * decimal ds).
Proof.
  intros Hws Hsign Hds Hne Hrest. unfold parseInt.
  rewrite trimStart_white_space by assumption.
  destruct ds as [| d ds]; [congruence |]. clear Hne.
  pose proof Hds as Hd. simpl in Hd. apply andb_true_iff in Hd as [Hd _].
  pose proof (digit_not_white_space _ Hd) as Hnw.
  pose proof (digit_not_sign _ Hd) as [Hm Hp].
  assert (Hdp : digits_prefix (String d ds +:+ rest) <> []).
  { simpl. rewrite (digit_of_is_digit _ Hd). discriminate. }
  assert (Hval : math_int (digits_prefix (String d ds +:+ rest)) = decimal (String d ds)).
  { rewrite digits_prefix_app by assumption. apply math_int_decimal. }
  destruct Hsign as [-> | [-> | ->]].
  - rewrite trimStart_id by (simpl; assumption).
    change ("" +:+ String d ds +:+ rest) with (String d (ds +:+ rest)).
    change (String d ds +:+ rest) with (String d (ds +:+ rest)) in Hdp, Hval.
    assert (Hbr : (let '(sign, rest0) :=
               match String d (ds +:+ rest) with
               | String "-"%char r => (-1, r)
               | String "+"%char r => (1, r)
               | _ => (1, String d (ds +:+ rest))
               end in (sign, rest0)) = (1, String d (ds +:+ rest))).
    { destruct d as [[] [] [] [] [] [] [] []]; try reflexivity; congruence. }
    destruct (match String d (ds +:+ rest) with
              | String "-"%char r => (-1, r)
              | String "+"%char r => (1, r)
              | _ => (1, String d (ds +:+ rest))
              end) as [sg r] eqn:E.
    injection Hbr as -> ->.
    destruct (digits_prefix (String d (ds +:+ rest))) eqn:Edp; [congruence |].
    rewrite Hval. unfold signum. simpl String.eqb.
    destruct (decimal (String d ds) =? 0); reflexivity.
  - change (trimStart ("+" +:+ String d ds +:+ rest))
      with (String "+"%char (String d ds +:+ rest)).
    cbv iota beta.
    destruct (digits_prefix (String d ds +:+ rest)) eqn:Edp; [congruence |].
    rewrite Hval. unfold signum. simpl String.eqb.
    destruct (decimal (String d ds) =? 0); reflexivity.
  - change (trimStart ("-" +:+ String d ds +:+ rest))
      with (String "-"%char (String d ds +:+ rest)).
    cbv iota beta.
    destruct (digits_prefix (String d ds +:+ rest)) eqn:Edp; [congruence |].
    rewrite Hval. unfold signum. simpl String.eqb.
    destruct (decimal (String d ds) =? 0); reflexivity.
Qed.

(** [Number_of_Z] agrees with the library's rounding to binary64 on small
    integers, around 2^53 and its ties, on a power of ten that is not a
    double, on both sides of the overflow threshold and far beyond. *)
Example Number_of_Z_agrees :
  Forall (fun z => Number_of_Z z = binary64_of_Z z)
    [0; 1; -7; 42; 2 ^ 53 - 1; 2 ^ 53; 2 ^ 53 + 1; 2 ^ 53 + 2; 2 ^ 53 + 3;
     - (2 ^ 53 + 1); 2 ^ 54 + 2; 2 ^ 54 + 6; 10 ^ 21; 10 ^ 23; 123456789012345678901;
     2 ^ 1024 - 2 ^ 971; 2 ^ 1024 - 2 ^ 970 - 1; 2 ^ 1024 - 2 ^ 970; - (2 ^ 1024);
     10 ^ 400].
Proof. repeat constructor. Qed.

(** [String()] on Numbers beyond 2^53: the shortest digits that read back,
    padded with zeros up to 21 digits and in exponent notation beyond. *)
Example String_of_number_beyond_2_53 :
  String_of_number (Number_of_Z (2 ^ 53 + 1)) = "9007199254740992" /\
  String_of_number (Number_of_Z (2 ^ 68)) = "295147905179352830000" /\
  String_of_number (Number_of_Z (10 ^ 21)) = "1e+21" /\
  String_of_number (Number_of_Z (10 ^ 23)) = "1e+23" /\
  String_of_number (Number_of_Z (- 2 ^ 70)) = "-1.1805916207174113e+21" /\
  String_of_number (Number_of_Z (2 ^ 1024 - 2 ^ 971)) = "1.7976931348623157e+308" /\
  String_of_number (Number_of_Z (10 ^ 400)) = "Infinity".
Proof. repeat split. Qed.

(** [round_to_double] returns the value of a double, a significand of at
    most 53 bits times a power of two, and one that is within half a unit
    of that significand of the integer it rounds. *)
Lemma round_to_double_nearest (a : Z) :
  0 < a ->
  exists q e,
    round_to_double a = q * 2 ^ e /\ 0 < q <= 2 ^ 53 /\ 0 <= e /\
    2 * Z.abs (round_to_double a - a) <= 2 ^ e.
Proof.
  intros Ha. unfold round_to_double.
  set (e := Z.max 0 (Z.log2 a - 52)).
  assert (He : 0 <= e) by (unfold e; lia).
  assert (Hpow : 0 < 2 ^ e) by (apply Z.pow_pos_nonneg; lia).
  pose proof (Z.div_mod a (2 ^ e) ltac:(lia)) as Hdm.
  pose proof (Z.mod_pos_bound a (2 ^ e) Hpow) as Hr.
  destruct (Z.log2_spec a Ha) as [Hlo Hhi].
  assert (Hq1 : a / 2 ^ e < 2 ^ 53).
  { apply Z.div_lt_upper_bound; [exact Hpow |].
    rewrite <- Z.pow_add_r by lia.
    eapply Z.lt_le_trans; [exact Hhi |].
    apply Z.pow_le_mono_r; unfold e; lia. }
  assert (Hq0 : 0 < a / 2 ^ e).
  { apply Z.div_str_pos. split; [exact Hpow |].
    eapply Z.le_trans; [| exact Hlo].
    apply Z.pow_le_mono_r; [lia |]. unfold e.
    pose proof (Z.log2_nonneg a). lia. }
  set (q := a / 2 ^ e) in *. set (r := a mod 2 ^ e) in *.
  destruct ((2 ^ e <? 2 * r) || ((2 * r =? 2 ^ e) && Z.odd q)) eqn:Eup.
  - exists (q + 1), e. split; [reflexivity |]. split; [lia |]. split; [exact He |].
    assert (2 ^ e <= 2 * r).
    { apply orb_true_iff in Eup as [H | H].
      - apply Z.ltb_lt in H. lia.
      - apply andb_true_iff in H as [H _]. apply Z.eqb_eq in H. lia. }
    nia.
  - exists q, e. split; [reflexivity |]. split; [lia |]. split; [exact He |].
    apply orb_false_iff in Eup as [H _]. apply Z.ltb_ge in H. nia.
Qed.

(** Every positive integer up to 2^53 is the value of a double. *)
Lemma round_to_double_exact (a : Z) : 0 < a <= 2 ^ 53 -> round_to_double a = a.
Proof.
  intros [Hpos Hle]. destruct (Z.eq_dec a (2 ^ 53)) as [-> | Hne]; [reflexivity |].
  assert (Hlog : Z.log2 a < 53) by (apply Z.log2_lt_pow2; lia).
  unfold round_to_double. rewrite Z.max_l by lia.
  change (2 ^ 0) with 1. rewrite Z.div_1_r, Z.mod_1_r. simpl. lia.
Qed.

Lemma Number_of_Z_exact (z : Z) : Z.abs z <= 2 ^ 53 -> Number_of_Z z = Int z.
Proof.
  intros Hz. unfold Number_of_Z. destruct (Z.eqb_spec z 0) as [-> | Hne]; [reflexivity |].
  rewrite round_to_double_exact by lia.
  assert (Hpow : 2 ^ 53 < 2 ^ 1024) by (apply Z.pow_lt_mono_r; lia).
  destruct (Z.leb_spec (2 ^ 1024) (Z.abs z)); [lia |].
  destruct z; reflexivity.
Qed.

Lemma Number_of_Z_not_NaN (z : Z) : isNaN (Number_of_Z z) = false.
Proof.
  unfold Number_of_Z. destruct (z =? 0); [reflexivity |].
  destruct (_ <=? _); reflexivity.
Qed.

Lemma digit_range (c : ascii) :
  is_digit c = true -> 0 <= Z.of_N (N_of_ascii c) - 48 <= 9.
Proof.
  unfold is_digit, digit_of.
  destruct (_ && _) eqn:E; [| discriminate]. intros _.
  apply andb_true_iff in E as [E1 E2].
  apply Z.leb_le in E1. apply Z.leb_le in E2. lia.
Qed.

Lemma decimal_nonneg (ds : string) : all_chars is_digit ds = true -> 0 <= decimal ds.
Proof.
  induction ds as [| c ds IH]; simpl; [lia |].
  intros [Hc Hds]%andb_true_iff. pose proof (digit_range c Hc). specialize (IH Hds).
  assert (0 <= 10 ^ Z.of_nat (String.length ds)) by (apply Z.pow_nonneg; lia).
  nia.
Qed.

Lemma signed_decimal_abs (sign ds : string) :
  all_chars is_digit ds = true -> Z.abs (signum sign * decimal ds) = decimal ds.
Proof.
  intros Hds. pose proof (decimal_nonneg ds Hds). unfold signum.
  destruct (String.eqb sign "-"); lia.
Qed.

End ParseInt.

(** ** Variant A: the change handler and the submission routine *)

Section VariantA_facts.

Import JS VariantA.

Lemma setData_single_eq (name : string) (v : value) (prev : values) :
  setData {[ name := v ]} prev !! name = Some v.
Proof.
  unfold setData. rewrite lookup_union, lookup_singleton_eq.
  destruct (prev !! name); reflexivity.
Qed.

Lemma setData_single_ne (name k : string) (v : value) (prev : values) :
  k <> name -> setData {[ name := v ]} prev !! k = prev !! k.
Proof.
  intros Hk. unfold setData.
  rewrite lookup_union, lookup_singleton_ne by congruence.
  destruct (prev !! k); reflexivity.
Qed.

Lemma onChange_lookup_eq (name type : string) (event : change_arg) (prev : values) :
  onChange name type event prev !! name
  = Some (if String.eqb type "number"
          then (if isNaN (parseInt (normalize event)) then VNum (Int 0)
                else VNum (parseInt (normalize event)))
          else VStr (normalize event)).
Proof. unfold onChange. apply setData_single_eq. Qed.

Lemma onChange_lookup_ne (name type k : string) (event : change_arg) (prev : values) :
  k <> name -> onChange name type event prev !! k = prev !! k.
Proof. unfold onChange. apply setData_single_ne. Qed.

(** C4. The change handler of a field of type ['number'] stores 0 when the
    normalized string does not parse ([parseInt] is [NaN]) and the parsed
    number otherwise; the handler of any other field stores the normalized
    string; in both cases under the field's name, the other fields being
    left as they were. *)
Theorem onChange_stores_parsed_or_string
    (name type : string) (event : change_arg) (prev : values) :
  (type = "number" -> parseInt (normalize event) = NaN ->
     onChange name type event prev !! name = Some (VNum (Int 0))) /\
  (type = "number" -> parseInt (normalize event) <> NaN ->
     onChange name type event prev !! name = Some (VNum (parseInt (normalize event)))) /\
  (type <> "number" ->
     onChange name type event prev !! name = Some (VStr (normalize event))) /\
  (forall k, k <> name -> onChange name type event prev !! k = prev !! k).
Proof.
  rewrite onChange_lookup_eq. repeat split.
  - intros -> E. rewrite E. reflexivity.
  - intros -> E.
    destruct (parseInt (normalize event)); [congruence | reflexivity ..].
  - intros Hty.
    destruct (String.eqb_spec type "number"); [congruence | reflexivity].
  - intros k Hk. apply onChange_lookup_ne, Hk.
Qed.

(** The string "42", typed or selected, stores the number 42 in a numeric
    field; a string without digits stores 0; a text field keeps the string. *)
Lemma onChange_stores_parsed_or_string_witness :
  onChange "price" "number" (ChangeEvent "42") {[ "title" := VStr "a" ]} !! "price"
    = Some (VNum (Int 42)) /\
  onChange "price" "number" (RawString "abc") {[ "title" := VStr "a" ]} !! "price"
    = Some (VNum (Int 0)) /\
  onChange "category" "text" (RawString "anime") {[ "title" := VStr "a" ]} !! "category"
    = Some (VStr "anime") /\
  onChange "price" "number" (ChangeEvent "42") {[ "title" := VStr "a" ]} !! "title"
    = Some (VStr "a").
Proof.
  split; [| split; [| split]].
  - apply (onChange_stores_parsed_or_string "price" "number" (ChangeEvent "42")
             {[ "title" := VStr "a" ]}); [reflexivity | discriminate].
  - apply (onChange_stores_parsed_or_string "price" "number" (RawString "abc")
             {[ "title" := VStr "a" ]}); reflexivity.
  - apply (onChange_stores_parsed_or_string "category" "text" (RawString "anime")
             {[ "title" := VStr "a" ]}); discriminate.
  - rewrite (proj2 (proj2 (proj2 (onChange_stores_parsed_or_string "price" "number"
               (ChangeEvent "42") {[ "title" := VStr "a" ]}))) "title") by discriminate.
    reflexivity.
Defined.

(** What a numeric field stores when digits are read: the Number for the
    signed integer they denote, that is the nearest double, or an infinity
    from 2^1024 - 2^970 on. *)
Lemma numeric_field_stores_nearest_double
    (name : string) (event : change_arg) (prev : values)
    (ws sign ds rest : string) :
  normalize event = ws +:+ sign +:+ ds +:+ rest ->
  all_chars is_white_space ws = true ->
  sign = "" \/ sign = "+" \/ sign = "-" ->
  all_chars is_digit ds = true -> ds <> "" ->
  starts_with is_digit rest = false ->
  decimal ds <> 0 ->
  onChange name "number" event prev !! name
  = Some (VNum (Number_of_Z (signum sign * decimal ds))).
Proof.
  intros Hs Hws Hsign Hds Hne Hrest Hnz.
  pose proof (parseInt_split ws sign ds rest Hws Hsign Hds Hne Hrest) as Hp.
  rewrite <- Hs in Hp. apply Z.eqb_neq in Hnz. rewrite Hnz in Hp.
  rewrite onChange_lookup_eq, Hp, Number_of_Z_not_NaN. reflexivity.
Qed.

(** C9, within the integers that a Number holds exactly. Numeric parsing
    is base-10 integer parsing: when the normalized string is white space,
    an optional sign, a non-empty run of decimal digits that denotes an
    integer of at most 2^53, and a rest that does not continue the run,
    the numeric field stores exactly that signed integer; whatever follows
    the digits, a fractional part included, is discarded. *)
Theorem numeric_field_stores_integer_prefix
    (name : string) (event : change_arg) (prev : values)
    (ws sign ds rest : string) :
  normalize event = ws +:+ sign +:+ ds +:+ rest ->
  all_chars is_white_space ws = true ->
  sign = "" \/ sign = "+" \/ sign = "-" ->
  all_chars is_digit ds = true -> ds <> "" ->
  starts_with is_digit rest = false ->
  decimal ds <= 2 ^ 53 ->
  exists n,
    onChange name "number" event prev !! name = Some (VNum n) /\
    math_value n = Some (signum sign * decimal ds).
Proof.
  intros Hs Hws Hsign Hds Hne Hrest Hbound.
  pose proof (parseInt_split ws sign ds rest Hws Hsign Hds Hne Hrest) as Hp.
  rewrite <- Hs in Hp.
  rewrite Number_of_Z_exact in Hp by (rewrite signed_decimal_abs; assumption).
  exists (parseInt (normalize event)). split.
  - rewrite onChange_lookup_eq, Hp. simpl String.eqb.
    destruct (decimal ds =? 0); [destruct (String.eqb sign "-") |]; reflexivity.
  - rewrite Hp. destruct (decimal ds =? 0) eqn:E0.
    + apply Z.eqb_eq in E0. rewrite E0, Z.mul_0_r.
      destruct (String.eqb sign "-"); reflexivity.
    + reflexivity.
Qed.

(** The string "42px" stores 42. *)
Lemma numeric_field_stores_integer_prefix_witness :
  exists n,
    onChange "price" "number" (ChangeEvent "42px") ∅ !! "price" = Some (VNum n) /\
    math_value n = Some (signum "" * decimal "42").
Proof.
  apply (numeric_field_stores_integer_prefix "price" (ChangeEvent "42px") ∅
           "" "" "42" "px");
    [reflexivity | reflexivity | left; reflexivity | reflexivity
    | discriminate | reflexivity | vm_compute; discriminate].
Defined.

(** C9 fails on the code beyond 2^53. The string '9007199254740993' is
    all digits and denotes 2^53 + 1; the numeric field stores 2^53, the
    nearest double, which is not the integer the digits denote. And a 1
    followed by 400 zeros stores the positive infinity. *)
Lemma numeric_field_rounds_beyond_2_53 :
  all_chars is_digit "9007199254740993" = true /\
  decimal "9007199254740993" = 2 ^ 53 + 1 /\
  onChange "price" "number" (ChangeEvent "9007199254740993") ∅ !! "price"
    = Some (VNum (Int (2 ^ 53))) /\
  math_value (Int (2 ^ 53)) <> Some (signum "" * decimal "9007199254740993") /\
  onChange "price" "number" (ChangeEvent ("1" +:+ zeros 400)) ∅ !! "price"
    = Some (VNum (Infinity false)).
Proof.
  split; [reflexivity |]. split; [reflexivity |]. split; [| split].
  - rewrite onChange_lookup_eq. vm_compute. reflexivity.
  - vm_compute. discriminate.
  - rewrite onChange_lookup_eq. vm_compute. reflexivity.
Qed.

(** The examples of C9: the fraction of "3.9" and the unit of "42px" are
    dropped. *)
Example numeric_field_fraction :
  onChange "price" "number" (ChangeEvent "3.9") ∅ = {[ "price" := VNum (Int 3) ]} /\
  onChange "price" "number" (ChangeEvent "42px") ∅ = {[ "price" := VNum (Int 42) ]} /\
  onChange "price" "number" (RawString " -7.5e3") ∅ = {[ "price" := VNum (Int (-7)) ]}.
Proof.
  unfold onChange, setData. rewrite !(right_id_L ∅ (∪)). repeat split.
Qed.

(** C5. When the submit handler resolves: with reset-on-submit enabled the
    value map exposed afterwards is the caller's defaults, the map the
    container was mounted with, whatever was submitted and whatever was
    typed meanwhile; with the option disabled or absent the submission
    writes nothing, so the map is the current one with only the updates
    typed meanwhile, and the current one itself when there are none. *)
Theorem handleSubmit_reset
    (p : FormProps) (h : handler) (while_pending : list values)
    (data : values) (made : list event) :
  onSubmit p = Some h -> h data = (made, Resolved) ->
  (isReset p = Some true ->
     exposed (handleSubmit p while_pending data) = defaultValues p /\
     exposed (handleSubmit p while_pending data) = mount p) /\
  (isReset p = Some false \/ isReset p = None ->
     exposed (handleSubmit p while_pending data)
       = fold_left (fun prev u => setData u prev) while_pending data /\
     exposed (handleSubmit p [] data) = data).
Proof.
  intros Hh Hres. unfold handleSubmit, mount. rewrite Hh, Hres. split.
  - intros ->. split; reflexivity.
  - intros [-> | ->]; split; reflexivity.
Qed.

(** The form of the mutation page with the option switched on, submitted
    after a title was typed, goes back to its defaults; as the page has it,
    without the option, it keeps the title. *)
Lemma handleSubmit_reset_witness :
  exposed (handleSubmit (CreatePostPage_with (Some CreatePostPage.mutate) (Some true))
             [] title_typed) = CreatePostPage.defaultValues /\
  exposed (handleSubmit (CreatePostPage.props None false) [] title_typed) = title_typed.
Proof.
  split.
  - apply (handleSubmit_reset
             (CreatePostPage_with (Some CreatePostPage.mutate) (Some true))
             CreatePostPage.mutate [] title_typed [Mutate title_typed]);
      reflexivity.
  - apply (handleSubmit_reset (CreatePostPage.props None false)
             CreatePostPage.mutate [] title_typed [Mutate title_typed]);
      [reflexivity | reflexivity | right; reflexivity].
Defined.

(** C10. Without a submit handler the submission routine makes no call at
    all, [preventDefault] included, and leaves the value map as it is,
    reset-on-submit or not. *)
Theorem handleSubmit_without_handler
    (p : FormProps) (while_pending : list values) (data : values) :
  onSubmit p = None ->
  handleSubmit p while_pending data
  = {| calls := []; exposed := data; settled := Resolved |}.
Proof. intros H. unfold handleSubmit. rewrite H. reflexivity. Qed.

(** A form without handler and with reset-on-submit, submitted after a
    title was typed: nothing is called and the title stays. *)
Lemma handleSubmit_without_handler_witness :
  handleSubmit (CreatePostPage_with None (Some true)) [] title_typed
  = {| calls := []; exposed := title_typed; settled := Resolved |}.
Proof.
  apply (handleSubmit_without_handler (CreatePostPage_with None (Some true))).
  reflexivity.
Defined.

End VariantA_facts.

(** ** Variant B: the submission routine of [useForm] *)

Section VariantB_facts.

Import JS VariantB.

(** The routine never writes the value map or the pending flag. *)
Lemma handleSubmit_formData (p : useFormProps) (st : form) :
  formData (snd (handleSubmit p st)) = formData st /\
  isPending (snd (handleSubmit p st)) = isPending st.
Proof.
  unfold handleSubmit.
  destruct (try_block p (formData st)) as [calls [error |]]; [| split; reflexivity].
  destruct (instanceof_ZodError error); [split; reflexivity |].
  destruct (instanceof_Error error), (onError p); split; reflexivity.
Qed.

(** When the [try] block ends without a [ZodError] in flight, the error map
    is the one stored before. *)
Lemma handleSubmit_errors_kept (p : useFormProps) (st : form) calls result :
  try_block p (formData st) = (calls, result) ->
  match result with
  | inl error => instanceof_ZodError error = None
  | inr _ => True
  end ->
  errors (snd (handleSubmit p st)) = errors st.
Proof.
  intros E H. unfold handleSubmit. rewrite E.
  destruct result as [error |]; [| reflexivity].
  rewrite H. destruct (instanceof_Error error), (onError p); reflexivity.
Qed.


(** The success path as written. When the value map passes the schema and
    the submit handler resolves, the submission makes the two calls of the
    success path and leaves the whole state, its error map included, as it
    was: errors displayed before the submit are still displayed, and the
    error map is empty afterwards exactly when it was empty before. *)
Theorem handleSubmit_success_keeps_errors
    (p : useFormProps) (st : form) (parsedData : values) (calls : list event) :
  schema p (formData st) = inr parsedData ->
  onSubmit p parsedData = (calls, Resolved) ->
  handleSubmit p st = (PreventDefault :: OnSubmit parsedData :: calls, st) /\
  errors (snd (handleSubmit p st)) = errors st.
Proof.
  intros Hs Hh. unfold handleSubmit, try_block. rewrite Hs, Hh. split; reflexivity.
Qed.

(** C2. When [schema.parse] throws a [ZodError] on the current value map,
    the submission calls [preventDefault] and nothing else, so the submit
    handler is not entered, and the error map exposed afterwards is the
    error's flattened [fieldErrors], with the same field names; the value
    map is not touched. *)
Theorem handleSubmit_validation_failure
    (p : useFormProps) (st : form) (z : ZodError) :
  schema p (formData st) = inl (ThrowError (ZodErr z)) ->
  fst (handleSubmit p st) = [PreventDefault] /\
  (forall data, OnSubmit data ∉ fst (handleSubmit p st)) /\
  errors (snd (handleSubmit p st)) = fieldErrors z /\
  dom (errors (snd (handleSubmit p st))) = dom (fieldErrors z) /\
  formData (snd (handleSubmit p st)) = formData st.
Proof.
  intros Hs. unfold handleSubmit, try_block. rewrite Hs. simpl.
  repeat split. intros data Hin.
  apply list_elem_of_singleton in Hin. discriminate.
Qed.

(** C3. When the value map passes the schema, the submit handler throws an
    [Error] that is not a [ZodError] and an error callback is supplied, the
    callback is entered with that very error, after the handler and once,
    and the submission leaves the state, its value map included, as it
    was. *)
Theorem handleSubmit_application_error
    (p : useFormProps) (st : form) (parsedData : values) (calls : list event)
    (msg : string) (callback : Error -> list event) :
  schema p (formData st) = inr parsedData ->
  onSubmit p parsedData = (calls, Thrown (ThrowError (Err msg))) ->
  onError p = Some callback ->
  handleSubmit p st
    = (PreventDefault :: OnSubmit parsedData :: calls
         ++ OnError (Err msg) :: callback (Err msg), st) /\
  formData (snd (handleSubmit p st)) = formData st.
Proof.
  intros Hs Hh Hcb. unfold handleSubmit, try_block. rewrite Hs, Hh, Hcb.
  split; reflexivity.
Qed.

End VariantB_facts.

(** ** The form of the home page, run *)

Section HomePage_runs.

Import JS VariantB.

(** Submitting the empty defaults of the home page: both fields fail the
    schema, the handler is not entered, and each field gets its message. *)
Lemma handleSubmit_validation_failure_witness :
  fst (handleSubmit HomePage.props (mount HomePage.props)) = [PreventDefault] /\
  errors (snd (handleSubmit HomePage.props (mount HomePage.props)))
    = {[ "title" := ["String must contain at least 1 character(s)"];
         "content" := ["String must contain at least 1 character(s)"] ]}.
Proof.
  destruct (handleSubmit_validation_failure HomePage.props (mount HomePage.props)
              {| formErrors := [];
                 fieldErrors :=
                   {[ "title" := ["String must contain at least 1 character(s)"];
                      "content" := ["String must contain at least 1 character(s)"] ]} |})
    as (Hcalls & _ & Herrors & _); [vm_compute; reflexivity |].
  split; assumption.
Defined.

(** The scenario of the home page: the title 'Hello' makes the handler
    throw; the error callback is entered with that error and shows its
    message, and the value map still holds what was typed. *)
Lemma handleSubmit_application_error_witness :
  handleSubmit HomePage.props (type_in "Hello" "x" (mount HomePage.props))
  = ([PreventDefault;
      OnSubmit {[ "title" := VStr "Hello"; "content" := VStr "x" ]};
      OnError (Err "Title is invalid");
      ToastError (Err "Title is invalid")],
     type_in "Hello" "x" (mount HomePage.props)) /\
  formData (snd (handleSubmit HomePage.props (type_in "Hello" "x" (mount HomePage.props))))
  = {[ "title" := VStr "Hello"; "content" := VStr "x" ]}.
Proof.
  destruct (handleSubmit_application_error HomePage.props
              (type_in "Hello" "x" (mount HomePage.props))
              {[ "title" := VStr "Hello"; "content" := VStr "x" ]} []
              "Title is invalid" HomePage.onError)
    as [Hrun Hdata]; [vm_compute; reflexivity .. |].
  split.
  - rewrite Hrun. reflexivity.
  - rewrite Hdata. vm_compute. reflexivity.
Defined.

(** C1 fails on the code. On the home page, submit the empty defaults (both
    fields get an error), type a title and a content, and submit again: the
    value map passes the schema and the handler resolves, yet the error map
    is not empty afterwards. It still holds the two errors of the first
    submission, the title control is still marked invalid and its message
    still shows the error. *)
Lemma handleSubmit_success_does_not_clear_errors :
  schema HomePage.props (formData (after_failed_submit_and_edit "a" "b"))
    = inr {[ "title" := VStr "a"; "content" := VStr "b" ]} /\
  onSubmit HomePage.props {[ "title" := VStr "a"; "content" := VStr "b" ]}
    = ([ToastSuccess {[ "title" := VStr "a"; "content" := VStr "b" ]}], Resolved) /\
  errors (snd (handleSubmit HomePage.props (after_failed_submit_and_edit "a" "b")))
    <> ∅ /\
  errors (snd (handleSubmit HomePage.props (after_failed_submit_and_edit "a" "b")))
    = {[ "title" := ["String must contain at least 1 character(s)"];
         "content" := ["String must contain at least 1 character(s)"] ]} /\
  attr "aria-invalid"
    (FormControl {| name := Some "title" |} {| id := Some ":r1:" |}
       (Some (snd (handleSubmit HomePage.props (after_failed_submit_and_edit "a" "b")))))
    = Some "true" /\
  text
    (FormMessage {| name := Some "title" |} {| id := Some ":r1:" |}
       (Some (snd (handleSubmit HomePage.props (after_failed_submit_and_edit "a" "b"))))
       None)
    = Some "String must contain at least 1 character(s)".
Proof.
  split; [vm_compute; reflexivity | split; [vm_compute; reflexivity |]].
  split; [| repeat split; vm_compute; reflexivity].
  intros H.
  apply (f_equal (fun m : field_errors => m !! "title")) in H.
  vm_compute in H. discriminate.
Qed.

(** The same run, through the statement of the code's behaviour: the error
    map after the successful submission is the one left by the failed one. *)
Lemma handleSubmit_success_keeps_errors_witness :
  errors (snd (handleSubmit HomePage.props (after_failed_submit_and_edit "a" "b")))
    = {[ "title" := ["String must contain at least 1 character(s)"];
         "content" := ["String must contain at least 1 character(s)"] ]}.
Proof.
  destruct (handleSubmit_success_keeps_errors HomePage.props
              (after_failed_submit_and_edit "a" "b")
              {[ "title" := VStr "a"; "content" := VStr "b" ]}
              [ToastSuccess {[ "title" := VStr "a"; "content" := VStr "b" ]}])
    as [_ Herrors]; [vm_compute; reflexivity .. |].
  rewrite Herrors. vm_compute. reflexivity.
Defined.

End HomePage_runs.

(** ** Both variants: mounting, the setter, the field hook *)

Section Shared_facts.

(** C6. Right after mounting, before any setter call or submission, the
    values a container exposes are the caller's defaults: the [formData]
    that [useForm] returns, the [data] that [Form] provides, and so the
    value either hands to a field bound under it. *)
Theorem mount_exposes_defaults :
  (forall p : VariantB.useFormProps,
     VariantB.formData (VariantB.mount p) = VariantB.defaultValues p /\
     VariantB.errors (VariantB.mount p) = ∅) /\
  (forall p : VariantA.FormProps,
     VariantA.ctx_data (VariantA.provide p (VariantA.mount p))
       = VariantA.defaultValues p) /\
  (forall (p : VariantB.useFormProps) (name : string) item,
     name <> "" ->
     exists f,
       VariantB.useFormField {| VariantB.name := Some name |} item
         (Some (VariantB.mount p)) = inr f /\
       VariantB.f_value f = VariantB.defaultValues p !! name) /\
  (forall (p : VariantA.FormProps) (name : string) type,
     exists fieldContext onChange,
       VariantA.FormField name type (Some (VariantA.provide p (VariantA.mount p)))
         = inr (fieldContext, (VariantA.defaultValues p !! name, onChange))).
Proof.
  split; [| split; [| split]].
  - intros p. split; reflexivity.
  - reflexivity.
  - intros p name item Hname. unfold VariantB.useFormField.
    destruct name as [| c name]; [congruence |].
    eexists. split; reflexivity.
  - intros p name type. eexists _, _. reflexivity.
Qed.

(** The title field of the home page, right after mounting, is bound to the
    empty string of the defaults. *)
Lemma mount_exposes_defaults_witness :
  exists f,
    VariantB.useFormField {| VariantB.name := Some "title" |}
      {| VariantB.id := Some "r1" |} (Some (VariantB.mount HomePage.props)) = inr f /\
    VariantB.f_value f = Some (JS.VStr "").
Proof.
  destruct mount_exposes_defaults as (_ & _ & HB & _).
  destruct (HB HomePage.props "title" {| VariantB.id := Some "r1" |})
    as (f & Hf & Hvalue); [discriminate |].
  exists f. split; [exact Hf |].
  rewrite Hvalue. vm_compute. reflexivity.
Defined.

(** C8. The setter of either variant writes one field and leaves every
    other as it was: after [setValue name v] (Variant B) or
    [setData {[name]: v}] (Variant A) the field [name] holds [v], whatever
    it held before, and any other field holds what it held. More generally
    [setData] takes each field from the update when the update has it and
    from the previous map otherwise. *)
Theorem setter_shallow_merge :
  (forall (name : string) (v : JS.value) (st : VariantB.form),
     VariantB.formData (VariantB.setValue name v st) !! name = Some v /\
     (forall k, k <> name ->
        VariantB.formData (VariantB.setValue name v st) !! k
          = VariantB.formData st !! k) /\
     VariantB.errors (VariantB.setValue name v st) = VariantB.errors st) /\
  (forall (name : string) (v : JS.value) (prev : values),
     VariantA.setData {[ name := v ]} prev !! name = Some v /\
     (forall k, k <> name ->
        VariantA.setData {[ name := v ]} prev !! k = prev !! k)) /\
  (forall (update prev : values) (k : string),
     VariantA.setData update prev !! k
       = match update !! k with
         | Some v => Some v
         | None => prev !! k
         end).
Proof.
  split; [| split].
  - intros name v st. unfold VariantB.setValue. simpl. split; [| split].
    + apply lookup_insert_eq.
    + intros k Hk. apply lookup_insert_ne. congruence.
    + reflexivity.
  - intros name v prev. split.
    + apply setData_single_eq.
    + intros k Hk. apply setData_single_ne, Hk.
  - intros update prev k. unfold VariantA.setData. rewrite lookup_union.
    destruct (update !! k), (prev !! k); reflexivity.
Qed.

(** Two writes to the price of the mutation page: the last one wins and the
    title typed before is kept. *)
Lemma setter_shallow_merge_witness :
  VariantA.setData {[ "price" := JS.VNum (JS.Int 7) ]}
    (VariantA.setData {[ "price" := JS.VNum (JS.Int 5) ]}
       (VariantA.setData {[ "title" := JS.VStr "a" ]} CreatePostPage.defaultValues))
    !! "price" = Some (JS.VNum (JS.Int 7)) /\
  VariantA.setData {[ "price" := JS.VNum (JS.Int 7) ]}
    (VariantA.setData {[ "price" := JS.VNum (JS.Int 5) ]}
       (VariantA.setData {[ "title" := JS.VStr "a" ]} CreatePostPage.defaultValues))
    !! "title" = Some (JS.VStr "a").
Proof.
  destruct setter_shallow_merge as (_ & HA & _).
  destruct (HA "price" (JS.VNum (JS.Int 7))
              (VariantA.setData {[ "price" := JS.VNum (JS.Int 5) ]}
                 (VariantA.setData {[ "title" := JS.VStr "a" ]}
                    CreatePostPage.defaultValues))) as [Heq Hne].
  split; [exact Heq |].
  rewrite (Hne "title") by discriminate. vm_compute. reflexivity.
Defined.

(** C7. In either variant, when the name of the enclosing field context is
    absent or empty, as it is under the default context outside any
    [FormField], the field hook throws the error 'useFormField should be
    used within <FormField>' and returns no binding, and so does each of
    the four bound controls, whatever the item and form contexts, and in
    Variant A the caller's properties, are. *)
Theorem useFormField_outside_field :
  (forall (fieldContext : VariantA.FormFieldContextValue) itemContext form
          props children,
     falsy (VariantA.name fieldContext) = true ->
     let e := JS.ThrowError (JS.Err "useFormField should be used within <FormField>") in
     VariantA.useFormField fieldContext itemContext form = inl e /\
     VariantA.FormLabel fieldContext itemContext form props = inl e /\
     VariantA.FormControl fieldContext itemContext form props = inl e /\
     VariantA.FormDescription fieldContext itemContext form props = inl e /\
     VariantA.FormMessage fieldContext itemContext form props children = inl e) /\
  (forall (fieldContext : VariantB.FormFieldContextValue) itemContext form children,
     falsy (VariantB.name fieldContext) = true ->
     let e := JS.ThrowError (JS.Err "useFormField should be used within <FormField>") in
     VariantB.useFormField fieldContext itemContext form = inl e /\
     VariantB.FormLabel fieldContext itemContext form = inl e /\
     VariantB.FormControl fieldContext itemContext form = inl e /\
     VariantB.FormDescription fieldContext itemContext form = inl e /\
     VariantB.FormMessage fieldContext itemContext form children = inl e).
Proof.
  split; [intros fieldContext itemContext form props children Hname e
         | intros fieldContext itemContext form children Hname e].
  - assert (H : VariantA.useFormField fieldContext itemContext form = inl e).
    { unfold VariantA.useFormField. rewrite Hname. reflexivity. }
    unfold VariantA.FormLabel, VariantA.FormControl, VariantA.FormDescription,
      VariantA.FormMessage.
    rewrite H. repeat split.
  - assert (H : VariantB.useFormField fieldContext itemContext form = inl e).
    { unfold VariantB.useFormField. rewrite Hname. reflexivity. }
    unfold VariantB.FormLabel, VariantB.FormControl, VariantB.FormDescription,
      VariantB.FormMessage.
    rewrite H. repeat split.
Qed.

(** A label outside any provider, in either variant, and a control of
    Variant B under a field whose name is the empty string. *)
Lemma useFormField_outside_field_witness :
  VariantA.FormLabel VariantA.default_FormFieldContext
    VariantA.default_FormItemContext None []
    = inl (JS.ThrowError (JS.Err "useFormField should be used within <FormField>")) /\
  VariantB.FormControl {| VariantB.name := Some "" |}
    {| VariantB.id := Some "r1" |} (Some (VariantB.mount HomePage.props))
    = inl (JS.ThrowError (JS.Err "useFormField should be used within <FormField>")).
Proof.
  destruct useFormField_outside_field as [HA HB]. split.
  - apply (HA VariantA.default_FormFieldContext VariantA.default_FormItemContext
             None [] None). reflexivity.
  - apply (HB {| VariantB.name := Some "" |} {| VariantB.id := Some "r1" |}
             (Some (VariantB.mount HomePage.props)) None). reflexivity.
Defined.

End Shared_facts.

(** ** Variant A: more on the change handler *)

Section Change_handler.

Import JS VariantA.

(** [parseInt] reads its digits from the trimmed string without its sign. *)
Lemma parseInt_unsigned s :
  parseInt s
  = match digits_prefix (unsigned (trimStart s)) with
    | [] => NaN
    | ds =>
        if math_int ds =? 0
        then (if starts_with (Ascii.eqb "-") (trimStart s) then NegZero else Int 0)
        else Number_of_Z
               ((if starts_with (Ascii.eqb "-") (trimStart s) then -1 else 1)
                * math_int ds)
    end.
Proof.
  unfold parseInt. destruct (trimStart s) as [| c r]; [reflexivity |].
  destruct c as [[] [] [] [] [] [] [] []]; reflexivity.
Qed.

Lemma digits_prefix_no_digit s :
  starts_with is_digit s = false -> digits_prefix s = [].
Proof.
  destruct s as [| c s]; [reflexivity |]. simpl. unfold is_digit.
  destruct (digit_of c); [discriminate | reflexivity].
Qed.

(** The numeric field never holds [NaN], nor a string: whatever the change
    handler receives, it stores a Number that is not [NaN]. *)
Theorem numeric_field_never_NaN (name : string) (event : change_arg) (prev : values) :
  exists n,
    onChange name "number" event prev !! name = Some (VNum n) /\ isNaN n = false.
Proof.
  rewrite onChange_lookup_eq. simpl String.eqb.
  destruct (parseInt (normalize event)) as [| z | | negative] eqn:E; simpl; eauto.
Qed.

(** A string in which no digit follows the leading white space and the
    optional sign -- the empty string, blanks, a lone sign, a word, a
    fraction without integer part such as '.5' -- stores 0 in a numeric
    field. *)
Theorem numeric_field_without_digits
    (name : string) (event : change_arg) (prev : values) (ws rest : string) :
  normalize event = ws +:+ rest ->
  all_chars is_white_space ws = true ->
  starts_with is_white_space rest = false ->
  starts_with is_digit (unsigned rest) = false ->
  onChange name "number" event prev !! name = Some (VNum (Int 0)).
Proof.
  intros Hs Hws Hrest Hdigit.
  rewrite onChange_lookup_eq, Hs. simpl String.eqb.
  assert (Hnan : parseInt (ws +:+ rest) = NaN).
  { rewrite parseInt_unsigned, trimStart_white_space, trimStart_id by assumption.
    rewrite digits_prefix_no_digit by assumption. reflexivity. }
  rewrite Hnan. reflexivity.
Qed.

(** Clearing a price, typing a lone minus sign after a blank, or typing
    '.5' all store 0. *)
Lemma numeric_field_without_digits_witness :
  onChange "price" "number" (ChangeEvent "") ∅ !! "price" = Some (VNum (Int 0)) /\
  onChange "price" "number" (ChangeEvent " -") ∅ !! "price" = Some (VNum (Int 0)) /\
  onChange "price" "number" (ChangeEvent ".5") ∅ !! "price" = Some (VNum (Int 0)).
Proof.
  split; [| split].
  - apply (numeric_field_without_digits "price" (ChangeEvent "") ∅ "" ""); reflexivity.
  - apply (numeric_field_without_digits "price" (ChangeEvent " -") ∅ " " "-");
      reflexivity.
  - apply (numeric_field_without_digits "price" (ChangeEvent ".5") ∅ "" ".5");
      reflexivity.
Defined.

(** On one field the last change wins: a change overwrites what an earlier
    change of the same field stored, whatever the two types and events. *)
Theorem onChange_overwrites
    (name type1 type2 : string) (event1 event2 : change_arg) (prev : values) :
  onChange name type2 event2 (onChange name type1 event1 prev)
  = onChange name type2 event2 prev.
Proof.
  apply map_eq. intros k. destruct (decide (k = name)) as [-> | Hk].
  - rewrite !onChange_lookup_eq. reflexivity.
  - rewrite !onChange_lookup_ne by assumption. reflexivity.
Qed.

(** Changes of two different fields do not interfere: in either order they
    leave the same value map. *)
Theorem onChange_commutes
    (name1 name2 type1 type2 : string) (event1 event2 : change_arg) (prev : values) :
  name1 <> name2 ->
  onChange name1 type1 event1 (onChange name2 type2 event2 prev)
  = onChange name2 type2 event2 (onChange name1 type1 event1 prev).
Proof.
  intros Hne. apply map_eq. intros k.
  destruct (decide (k = name1)) as [-> | Hk1].
  - rewrite onChange_lookup_eq, onChange_lookup_ne, onChange_lookup_eq by assumption.
    reflexivity.
  - destruct (decide (k = name2)) as [-> | Hk2].
    + rewrite onChange_lookup_ne, !onChange_lookup_eq by assumption. reflexivity.
    + rewrite !onChange_lookup_ne by assumption. reflexivity.
Qed.

(** Typing a price then a title, or the title then the price. *)
Lemma onChange_commutes_witness :
  onChange "price" "number" (ChangeEvent "12") (onChange "title" "text" (ChangeEvent "a")
    CreatePostPage.defaultValues)
  = onChange "title" "text" (ChangeEvent "a") (onChange "price" "number" (ChangeEvent "12")
    CreatePostPage.defaultValues).
Proof.
  apply (onChange_commutes "price" "title" "number" "text"). discriminate.
Defined.

End Change_handler.

(** ** Variant A: a stored integer read back from its decimal text *)

Section Round_trip.

Import JS VariantA.

Lemma append_empty_r (s : string) : s +:+ "" = s.
Proof.
  induction s as [| c s IH]; [reflexivity |].
  change (String c (s +:+ "") = String c s). rewrite IH. reflexivity.
Qed.

Lemma pretty_N_char_digit (m : N) :
  (m < 10)%N ->
  is_digit (pretty_N_char m) = true /\
  Z.of_N (N_of_ascii (pretty_N_char m)) - 48 = Z.of_N m.
Proof.
  intros Hm.
  assert (m = 0 \/ m = 1 \/ m = 2 \/ m = 3 \/ m = 4 \/ m = 5 \/ m = 6 \/ m = 7
          \/ m = 8 \/ m = 9)%N as H by lia.
  repeat (destruct H as [-> | H]; [split; reflexivity |]).
  subst m. split; reflexivity.
Qed.

(** The digits that [pretty] puts in front of [s] are those of [x]. *)
Lemma pretty_N_go_decimal (x : N) (s : string) :
  all_chars is_digit s = true ->
  all_chars is_digit (pretty_N_go x s) = true /\
  decimal (pretty_N_go x s)
  = Z.of_N x * 10 ^ Z.of_nat (String.length s) + decimal s.
Proof.
  revert s. induction (N.lt_wf_0 x) as [x _ IH]. intros s Hs.
  destruct (decide (x = 0%N)) as [-> | Hx].
  - rewrite pretty_N_go_0. split; [assumption | lia].
  - rewrite pretty_N_go_step by lia.
    destruct (pretty_N_char_digit (x `mod` 10)%N) as [Hd Hv];
      [apply N.mod_lt; lia |].
    destruct (IH (x `div` 10)%N) with (s := String (pretty_N_char (x `mod` 10)) s)
      as [Hall Hdec].
    + apply N.div_lt; lia.
    + simpl. rewrite Hd. assumption.
    + split; [assumption |]. rewrite Hdec.
      cbn [String.length decimal]. rewrite Hv, Nat2Z.inj_succ, Z.pow_succ_r by lia.
      rewrite (N.div_mod x 10) at 3 by lia.
      rewrite N2Z.inj_add, N2Z.inj_mul. change (Z.of_N 10) with 10. ring.
Qed.

Lemma pretty_pos_decimal (q : positive) :
  all_chars is_digit (pretty (N.pos q)) = true /\
  decimal (pretty (N.pos q)) = Z.pos q.
Proof.
  unfold pretty, pretty_N. destruct (decide (N.pos q = 0%N)); [discriminate |].
  destruct (pretty_N_go_decimal (N.pos q) "" eq_refl) as [Hall Hdec].
  split; [assumption |]. rewrite Hdec. simpl. lia.
Qed.

Lemma parseInt_pretty (z : Z) : Z.abs z <= 2 ^ 53 -> parseInt (pretty z) = Int z.
Proof.
  intros Hz. destruct z as [| q | q].
  - reflexivity.
  - destruct (pretty_pos_decimal q) as [Hall Hdec].
    pose proof (parseInt_split "" "" (pretty (N.pos q)) "" eq_refl
                  (or_introl eq_refl) Hall) as H.
    change ("" +:+ "" +:+ pretty (N.pos q) +:+ "") with (pretty (N.pos q) +:+ "") in H.
    rewrite append_empty_r, Hdec in H.
    change (pretty (Z.pos q)) with (pretty (N.pos q)).
    rewrite H; [| | reflexivity].
    + rewrite Number_of_Z_exact by exact Hz. reflexivity.
    + intros E. rewrite E in Hdec. discriminate.
  - destruct (pretty_pos_decimal q) as [Hall Hdec].
    pose proof (parseInt_split "" "-" (pretty (N.pos q)) "" eq_refl
                  (or_intror (or_intror eq_refl)) Hall) as H.
    change ("" +:+ "-" +:+ pretty (N.pos q) +:+ "")
      with ("-" +:+ pretty (N.pos q) +:+ "") in H.
    rewrite append_empty_r, Hdec in H.
    change (pretty (Z.neg q)) with ("-" +:+ pretty (N.pos q)).
    rewrite H; [| | reflexivity].
    + rewrite Number_of_Z_exact by exact Hz. reflexivity.
    + intros E. rewrite E in Hdec. discriminate.
Qed.

(** An integer that a Number holds exactly, printed in decimal as
    [String()] prints it and fed back to the change handler of a numeric
    field, is stored as the same integer: sign and every digit are read
    back. *)
Theorem numeric_field_round_trip (name : string) (z : Z) (prev : values) :
  Z.abs z <= 2 ^ 53 ->
  onChange name "number" (ChangeEvent (String_of_value (Some (VNum (Int z))))) prev
    !! name
  = Some (VNum (Int z)).
Proof.
  intros Hz. rewrite onChange_lookup_eq. simpl String.eqb. simpl normalize.
  unfold String_of_value, String_of_number.
  rewrite (proj2 (Z.leb_le _ _) Hz), parseInt_pretty by exact Hz. reflexivity.
Qed.

(** The price -1250 printed and typed back. *)
Lemma numeric_field_round_trip_witness :
  onChange "price" "number"
    (ChangeEvent (String_of_value (Some (VNum (Int (-1250)))))) ∅ !! "price"
  = Some (VNum (Int (-1250))).
Proof.
  apply (numeric_field_round_trip "price" (-1250) ∅). vm_compute. discriminate.
Defined.

End Round_trip.

(** ** Variant A: more on the setter and the submission routine *)

Section Container_A.

Import JS VariantA.

(** Two partial updates in a row amount to the single update that merges
    them, the later one winning; the empty update changes nothing, and an
    update applied twice is applied once. *)
Theorem setData_compose (u1 u2 prev : values) :
  setData u2 (setData u1 prev) = setData (setData u2 u1) prev /\
  setData ∅ prev = prev /\
  setData u1 (setData u1 prev) = setData u1 prev.
Proof.
  unfold setData. split; [| split].
  - apply (assoc_L (∪)).
  - apply (left_id_L ∅ (∪)).
  - rewrite (assoc_L (∪)), (idemp_L (∪)). reflexivity.
Qed.

(** The setter never drops a field: after any sequence of partial updates
    the value map has the fields it had and those of the updates, and a
    field that no update names holds what it held. *)
Theorem setData_keeps_fields (updates : list values) (prev : values) (k : string) :
  (is_Some (prev !! k) ->
   is_Some (fold_left (fun prev u => setData u prev) updates prev !! k)) /\
  (Forall (fun u => u !! k = None) updates ->
   fold_left (fun prev u => setData u prev) updates prev !! k = prev !! k).
Proof.
  revert prev. induction updates as [| u updates IH]; intros prev; simpl.
  - split; [tauto | reflexivity].
  - destruct (IH (setData u prev)) as [IH1 IH2]. split.
    + intros [w Hk]. apply IH1. unfold setData. rewrite lookup_union, Hk.
      destruct (u !! k); simpl; eauto.
    + intros Hall. apply Forall_cons in Hall as [Hu Hall].
      rewrite IH2 by assumption. unfold setData. rewrite lookup_union, Hu.
      destruct (prev !! k); reflexivity.
Qed.

(** After a price and a category are set on the mutation page, the title
    is still a field, and still the empty string of the defaults. *)
Lemma setData_keeps_fields_witness :
  is_Some (fold_left (fun prev u => setData u prev)
             [ {[ "price" := VNum (Int 5) ]}; {[ "category" := VStr "anime" ]} ]
             CreatePostPage.defaultValues !! "title") /\
  fold_left (fun prev u => setData u prev)
    [ {[ "price" := VNum (Int 5) ]}; {[ "category" := VStr "anime" ]} ]
    CreatePostPage.defaultValues !! "title" = Some (VStr "").
Proof.
  destruct (setData_keeps_fields
              [ {[ "price" := VNum (Int 5) ]}; {[ "category" := VStr "anime" ]} ]
              CreatePostPage.defaultValues "title") as [H1 H2].
  split.
  - apply H1. exists (VStr ""). vm_compute. reflexivity.
  - rewrite H2; [vm_compute; reflexivity |].
    repeat constructor.
Defined.

(** When the submit handler throws, the routine rejects with what was
    thrown and the reset is skipped, even with reset-on-submit enabled:
    the value map keeps what was submitted and what was typed meanwhile.
    The handler was entered once, with the value map current at the
    submit, after [preventDefault]. *)
Theorem handleSubmit_handler_throws
    (p : FormProps) (h : handler) (while_pending : list values)
    (data : values) (made : list event) (e : thrown) :
  onSubmit p = Some h -> h data = (made, Thrown e) ->
  handleSubmit p while_pending data
  = {| calls := PreventDefault :: OnSubmit data :: made;
       exposed := fold_left (fun prev u => setData u prev) while_pending data;
       settled := Thrown e |} /\
  (while_pending = [] -> exposed (handleSubmit p while_pending data) = data).
Proof.
  intros Hh Hres. unfold handleSubmit. rewrite Hh, Hres. split; [reflexivity |].
  intros ->. reflexivity.
Qed.

(** A handler that fails, on the mutation page with reset-on-submit: the
    title typed before the submit is still there. *)
Lemma handleSubmit_handler_throws_witness :
  handleSubmit
    (CreatePostPage_with
       (Some (fun _ => ([], Thrown (ThrowError (Err "offline"))))) (Some true))
    [] title_typed
  = {| calls := [PreventDefault; OnSubmit title_typed];
       exposed := title_typed;
       settled := Thrown (ThrowError (Err "offline")) |}.
Proof.
  apply (handleSubmit_handler_throws
           (CreatePostPage_with
              (Some (fun _ => ([], Thrown (ThrowError (Err "offline"))))) (Some true))
           (fun _ => ([], Thrown (ThrowError (Err "offline"))))
           [] title_typed [] (ThrowError (Err "offline")));
    reflexivity.
Defined.

End Container_A.

(** ** Variant B: more on the submission routine *)

Section Container_B.

Import JS VariantB.

(** A [ZodError] thrown by the submit handler itself is taken for a
    validation failure: the error map becomes its flattened output and the
    error callback, supplied or not, is not entered. *)
Theorem handleSubmit_handler_validation_failure
    (p : useFormProps) (st : form) (parsedData : values) (made : list event)
    (z : ZodError) :
  schema p (formData st) = inr parsedData ->
  onSubmit p parsedData = (made, Thrown (ThrowError (ZodErr z))) ->
  handleSubmit p st
  = (PreventDefault :: OnSubmit parsedData :: made, setErrors (fieldErrors z) st) /\
  errors (snd (handleSubmit p st)) = fieldErrors z.
Proof.
  intros Hs Hh. unfold handleSubmit, try_block. rewrite Hs, Hh. split; reflexivity.
Qed.

(** What the submit handler throws is dropped without a trace when it is
    not an [Error], or when it is an [Error] other than a [ZodError] and no
    error callback was supplied: nothing more is called and the state is
    left as it was. *)
Theorem handleSubmit_discards
    (p : useFormProps) (st : form) (parsedData : values) (made : list event)
    (e : thrown) :
  schema p (formData st) = inr parsedData ->
  onSubmit p parsedData = (made, Thrown e) ->
  instanceof_ZodError e = None ->
  instanceof_Error e = None \/ onError p = None ->
  handleSubmit p st = (PreventDefault :: OnSubmit parsedData :: made, st).
Proof.
  intros Hs Hh Hz Hcase. unfold handleSubmit, try_block. rewrite Hs, Hh, Hz.
  destruct Hcase as [-> | ->]; [reflexivity |].
  destruct (instanceof_Error e); reflexivity.
Qed.

(** An [Error] other than a [ZodError] thrown by [schema.parse] goes to the
    error callback like one thrown by the handler, which is not entered. *)
Theorem handleSubmit_schema_error
    (p : useFormProps) (st : form) (msg : string) (callback : Error -> list event) :
  schema p (formData st) = inl (ThrowError (Err msg)) ->
  onError p = Some callback ->
  handleSubmit p st = (PreventDefault :: OnError (Err msg) :: callback (Err msg), st).
Proof.
  intros Hs Hcb. unfold handleSubmit, try_block. rewrite Hs, Hcb. reflexivity.
Qed.

(** No field is ever lost: in every state a form goes through, whatever is
    typed and however submissions end, each field of the defaults is still
    in the value map. *)
Theorem reachable_keeps_fields (p : useFormProps) (st : form) (k : string) :
  reachable p st ->
  is_Some (defaultValues p !! k) -> is_Some (formData st !! k).
Proof.
  intros Hreach Hk. induction Hreach as [| st st' _ IH Hstep]; [exact Hk |].
  destruct Hstep as [name value st | st].
  - simpl. destruct (decide (name = k)) as [-> | Hne].
    + rewrite lookup_insert_eq. eauto.
    + rewrite lookup_insert_ne by assumption. exact IH.
  - rewrite (proj1 (handleSubmit_formData p st)). exact IH.
Qed.

(** Typing in a field changes the value the field is bound to and nothing
    else: the other fields and the whole error map, the error shown under
    the edited field included, are as before. *)
Theorem typing_keeps_errors
    (name : string) (item : FormItemContextValue) (st : form) (typed : string) :
  name <> "" ->
  exists st',
    FormControl_onChange {| name := Some name |} item (Some st) typed st = inr st' /\
    attr "value" (FormControl {| name := Some name |} item (Some st')) = Some typed /\
    (forall k, k <> name -> formData st' !! k = formData st !! k) /\
    errors st' = errors st /\
    forall children,
      FormMessage {| name := Some name |} item (Some st') children
      = FormMessage {| name := Some name |} item (Some st) children.
Proof.
  intros Hname. destruct name as [| c name]; [congruence |].
  eexists. split; [reflexivity |]. split; [| split; [| split]].
  - unfold FormControl, useFormField, attr. simpl.
    rewrite lookup_insert_eq. reflexivity.
  - intros k Hk. simpl. apply lookup_insert_ne. congruence.
  - reflexivity.
  - reflexivity.
Qed.

End Container_B.

(** ** Variant B: the home page, with other handlers *)

Section Container_B_runs.

Import JS VariantB.

(** In no outcome does a submission write the value map: validation
    failure, success, an error forwarded or dropped all leave every field
    as typed; in particular a successful submit does not reset the form. *)
Theorem submit_keeps_values (p : useFormProps) (st : form) :
  formData (snd (handleSubmit p st)) = formData st.
Proof.
  unfold handleSubmit.
  destruct (try_block p (formData st)) as [made [error |]]; [| reflexivity].
  destruct (instanceof_ZodError error); [reflexivity |].
  destruct (instanceof_Error error), (onError p); reflexivity.
Qed.

(** The home page with a handler that validates again on its own and
    fails on the content: the content gets the error, the callback that
    shows a toast is not entered. *)
Lemma handleSubmit_handler_validation_failure_witness :
  handleSubmit (HomePage_with HomePage.schema rejects_content (Some HomePage.onError))
    (type_in "a" "b" (mount HomePage.props))
  = ([PreventDefault; OnSubmit {[ "title" := VStr "a"; "content" := VStr "b" ]}],
     setErrors {[ "content" := ["Too short"] ]} (type_in "a" "b" (mount HomePage.props))).
Proof.
  destruct (handleSubmit_handler_validation_failure
              (HomePage_with HomePage.schema rejects_content (Some HomePage.onError))
              (type_in "a" "b" (mount HomePage.props))
              {[ "title" := VStr "a"; "content" := VStr "b" ]} []
              {| formErrors := []; fieldErrors := {[ "content" := ["Too short"] ]} |})
    as [Hrun _]; [vm_compute; reflexivity | reflexivity |].
  exact Hrun.
Defined.

(** The home page without its error callback: the title 'Hello' makes the
    handler throw, and nothing shows it. *)
Lemma handleSubmit_discards_witness :
  handleSubmit (HomePage_with HomePage.schema HomePage.onSubmit None)
    (type_in "Hello" "x" (mount HomePage.props))
  = ([PreventDefault; OnSubmit {[ "title" := VStr "Hello"; "content" := VStr "x" ]}],
     type_in "Hello" "x" (mount HomePage.props)).
Proof.
  apply (handleSubmit_discards
           (HomePage_with HomePage.schema HomePage.onSubmit None)
           (type_in "Hello" "x" (mount HomePage.props))
           {[ "title" := VStr "Hello"; "content" := VStr "x" ]} []
           (ThrowError (Err "Title is invalid")));
    [vm_compute; reflexivity | vm_compute; reflexivity | reflexivity
    | right; reflexivity].
Defined.

(** The home page with a schema whose refinement throws. *)
Lemma handleSubmit_schema_error_witness :
  handleSubmit
    (HomePage_with (fun _ => inl (ThrowError (Err "refinement failed")))
       HomePage.onSubmit (Some HomePage.onError))
    (mount HomePage.props)
  = ([PreventDefault; OnError (Err "refinement failed");
      ToastError (Err "refinement failed")],
     mount HomePage.props).
Proof.
  apply (handleSubmit_schema_error
           (HomePage_with (fun _ => inl (ThrowError (Err "refinement failed")))
              HomePage.onSubmit (Some HomePage.onError))
           (mount HomePage.props) "refinement failed" HomePage.onError);
    reflexivity.
Defined.

Lemma reachable_after_failed_submit_and_edit (title content : string) :
  reachable HomePage.props (after_failed_submit_and_edit title content).
Proof.
  unfold after_failed_submit_and_edit, type_in.
  repeat (eapply reachable_step; [| constructor]).
  apply reachable_mount.
Qed.

(** After a failed submit and some typing on the home page, the content
    field is still there. *)
Lemma reachable_keeps_fields_witness :
  is_Some (formData (after_failed_submit_and_edit "a" "") !! "content").
Proof.
  apply (reachable_keeps_fields HomePage.props
           (after_failed_submit_and_edit "a" "") "content").
  - apply reachable_after_failed_submit_and_edit.
  - exists (VStr ""). vm_compute. reflexivity.
Defined.


(** Typing a title on the home page after a failed submit: the title
    control shows it, and the error under it stays. *)
Lemma typing_keeps_errors_witness :
  exists st',
    FormControl_onChange {| name := Some "title" |} {| id := Some "r1" |}
      (Some (snd (handleSubmit HomePage.props (mount HomePage.props)))) "a"
      (snd (handleSubmit HomePage.props (mount HomePage.props))) = inr st' /\
    attr "value" (FormControl {| name := Some "title" |} {| id := Some "r1" |} (Some st'))
      = Some "a" /\
    text (FormMessage {| name := Some "title" |} {| id := Some "r1" |} (Some st') None)
      = Some "String must contain at least 1 character(s)".
Proof.
  destruct (typing_keeps_errors "title" {| id := Some "r1" |}
              (snd (handleSubmit HomePage.props (mount HomePage.props))) "a")
    as (st' & Hst' & Hvalue & _ & _ & Hmessage); [discriminate |].
  exists st'. split; [exact Hst' |]. split; [exact Hvalue |].
  rewrite Hmessage. vm_compute. reflexivity.
Defined.

End Container_B_runs.

(** ** Both variants: the bound controls *)

Section Bound_controls.

Lemma length_app (a b : string) :
  String.length (a +:+ b) = (String.length a + String.length b)%nat.
Proof.
  induction a as [| c a IH]; [reflexivity |].
  change (S (String.length (a +:+ b)) = S (String.length a + String.length b)).
  rewrite IH. reflexivity.
Qed.

Lemma app_inj_suffix (a b t : string) : a +:+ t = b +:+ t -> a = b.
Proof.
  revert b. induction a as [| c a IH]; intros [| d b] H.
  - reflexivity.
  - apply (f_equal String.length) in H. rewrite !length_app in H.
    simpl in H. lia.
  - apply (f_equal String.length) in H. rewrite !length_app in H.
    simpl in H. lia.
  - change (String c (a +:+ t) = String d (b +:+ t)) in H.
    injection H as -> H. f_equal. apply IH, H.
Qed.

(** The identifiers of two field groups never clash: under two [FormItem]s
    whose generated identifiers differ, the controls, the descriptions and
    the messages get different ids; and within one group the three ids are
    different from each other. In both variants. *)
Theorem field_ids_distinct (useId1 useId2 : string) :
  useId1 <> useId2 ->
  (forall fieldContext1 fieldContext2 form props1 props2 f1 f2,
     VariantA.useFormField fieldContext1
       (fst (VariantA.FormItem useId1 form props1)) form = inr f1 ->
     VariantA.useFormField fieldContext2
       (fst (VariantA.FormItem useId2 form props2)) form = inr f2 ->
     VariantA.formItemId f1 <> VariantA.formItemId f2 /\
     VariantA.formDescriptionId f1 <> VariantA.formDescriptionId f2 /\
     VariantA.formMessageId f1 <> VariantA.formMessageId f2 /\
     VariantA.formItemId f1 <> VariantA.formDescriptionId f1 /\
     VariantA.formItemId f1 <> VariantA.formMessageId f1 /\
     VariantA.formDescriptionId f1 <> VariantA.formMessageId f1) /\
  (forall fieldContext1 fieldContext2 form f1 f2,
     VariantB.useFormField fieldContext1 (fst (VariantB.FormItem useId1 form)) form
       = inr f1 ->
     VariantB.useFormField fieldContext2 (fst (VariantB.FormItem useId2 form)) form
       = inr f2 ->
     VariantB.formItemId f1 <> VariantB.formItemId f2 /\
     VariantB.formDescriptionId f1 <> VariantB.formDescriptionId f2 /\
     VariantB.formMessageId f1 <> VariantB.formMessageId f2 /\
     VariantB.formItemId f1 <> VariantB.formDescriptionId f1 /\
     VariantB.formItemId f1 <> VariantB.formMessageId f1 /\
     VariantB.formDescriptionId f1 <> VariantB.formMessageId f1).
Proof.
  intros Hne.
  assert (Hsuffix : forall t, useId1 +:+ t <> useId2 +:+ t).
  { intros t H. apply Hne, (app_inj_suffix _ _ _ H). }
  assert (Hprefix : forall t1 t2, t1 <> t2 -> useId1 +:+ t1 <> useId1 +:+ t2).
  { intros t1 t2 Ht H. apply Ht, (String.app_inj _ _ _ H). }
  split; [intros fieldContext1 fieldContext2 form props1 props2 f1 f2 H1 H2
         | intros fieldContext1 fieldContext2 form f1 f2 H1 H2].
  - unfold VariantA.useFormField in H1, H2.
    destruct (falsy (VariantA.name fieldContext1)); [discriminate |].
    destruct (falsy (VariantA.name fieldContext2)); [discriminate |].
    injection H1 as <-. injection H2 as <-. simpl.
    repeat split; first [apply Hsuffix | apply Hprefix; discriminate].
  - unfold VariantB.useFormField in H1, H2.
    destruct (falsy (VariantB.name fieldContext1)); [discriminate |].
    destruct (falsy (VariantB.name fieldContext2)); [discriminate |].
    destruct form as [form |]; [| discriminate].
    injection H1 as <-. injection H2 as <-. simpl.
    repeat split; first [apply Hsuffix | apply Hprefix; discriminate].
Qed.

(** The title and the price of the mutation page, under the items ':r1:'
    and ':r2:'. *)
Lemma field_ids_distinct_witness :
  exists f1 f2,
    VariantA.useFormField
      {| VariantA.name := Some "title"; VariantA.type := Some "text" |}
      (fst (VariantA.FormItem ":r1:"
              (Some (VariantA.provide (CreatePostPage.props None false)
                 CreatePostPage.defaultValues)) []))
      (Some (VariantA.provide (CreatePostPage.props None false)
               CreatePostPage.defaultValues)) = inr f1 /\
    VariantA.useFormField
      {| VariantA.name := Some "price"; VariantA.type := Some "number" |}
      (fst (VariantA.FormItem ":r2:"
              (Some (VariantA.provide (CreatePostPage.props None false)
                 CreatePostPage.defaultValues)) []))
      (Some (VariantA.provide (CreatePostPage.props None false)
               CreatePostPage.defaultValues)) = inr f2 /\
    VariantA.formItemId f1 <> VariantA.formItemId f2 /\
    VariantA.formMessageId f1 <> VariantA.formMessageId f2.
Proof.
  destruct (field_ids_distinct ":r1:" ":r2:") as [HA _]; [discriminate |].
  eexists _, _. split; [reflexivity |]. split; [reflexivity |].
  destruct (HA {| VariantA.name := Some "title"; VariantA.type := Some "text" |}
               {| VariantA.name := Some "price"; VariantA.type := Some "number" |}
               (Some (VariantA.provide (CreatePostPage.props None false)
                        CreatePostPage.defaultValues))
               [] [] _ _ eq_refl eq_refl) as (H1 & _ & H3 & _).
  split; [exact H1 | exact H3].
Defined.

(** Outside any [FormItem] the identifier is [undefined], so that every
    field rendered there gets the same ids, 'undefined-form-item' and its
    two companions: the ids of such fields clash. In both variants. *)
Theorem field_ids_without_item :
  (forall fieldContext form f,
     VariantA.useFormField fieldContext VariantA.default_FormItemContext form = inr f ->
     VariantA.formItemId f = "undefined-form-item" /\
     VariantA.formDescriptionId f = "undefined-form-item-description" /\
     VariantA.formMessageId f = "undefined-form-item-message") /\
  (forall fieldContext form f,
     VariantB.useFormField fieldContext VariantB.default_FormItemContext form = inr f ->
     VariantB.formItemId f = "undefined-form-item" /\
     VariantB.formDescriptionId f = "undefined-form-item-description" /\
     VariantB.formMessageId f = "undefined-form-item-message").
Proof.
  split; intros fieldContext form f H.
  - unfold VariantA.useFormField in H.
    destruct (falsy (VariantA.name fieldContext)); [discriminate |].
    injection H as <-. repeat split.
  - unfold VariantB.useFormField in H.
    destruct (falsy (VariantB.name fieldContext)); [discriminate |].
    destruct form; [| discriminate].
    injection H as <-. repeat split.
Qed.

(** The title and the content of the home page, rendered without their
    [FormItem], would both label the same control id. *)
Lemma field_ids_without_item_witness :
  attr "htmlFor" (VariantB.FormLabel {| VariantB.name := Some "title" |}
                    VariantB.default_FormItemContext
                    (Some (VariantB.mount HomePage.props)))
  = attr "id" (VariantB.FormControl {| VariantB.name := Some "content" |}
                 VariantB.default_FormItemContext
                 (Some (VariantB.mount HomePage.props))).
Proof.
  destruct field_ids_without_item as [_ HB].
  destruct (HB {| VariantB.name := Some "title" |}
               (Some (VariantB.mount HomePage.props)) _ eq_refl) as (H1 & _).
  destruct (HB {| VariantB.name := Some "content" |}
               (Some (VariantB.mount HomePage.props)) _ eq_refl) as (H2 & _).
  unfold VariantB.FormLabel, VariantB.FormControl, and_then, attr.
  cbv beta iota. cbn [assoc String.eqb Ascii.eqb Bool.eqb].
  simpl in H1, H2 |- *. reflexivity.
Defined.



Lemma concat_starts (c : ascii) (m : string) (msgs : list string) :
  exists r, String.concat "," (String c m :: msgs) = String c r.
Proof.
  destruct msgs as [| m' msgs]; simpl.
  - eauto.
  - change (String c m +:+ "," +:+ String.concat "," (m' :: msgs))
      with (String c (m +:+ "," +:+ String.concat "," (m' :: msgs))).
    eauto.
Qed.

Lemma has_key_assoc (k : string) (props : list (string * string)) :
  has_key k props = match assoc k props with Some _ => true | None => false end.
Proof.
  induction props as [| [k' v] props IH]; [reflexivity |].
  unfold has_key in *. simpl. destruct (String.eqb k k'); [reflexivity | exact IH].
Qed.

Lemma assoc_app (k : string) (l1 l2 : list (string * string)) :
  assoc k (l1 ++ l2)
  = match assoc k l1 with Some v => Some v | None => assoc k l2 end.
Proof.
  induction l1 as [| [k' v] l1 IH]; [reflexivity |].
  simpl. destruct (String.eqb k k'); [reflexivity | exact IH].
Qed.

Lemma assoc_filter_keep (k : string) (P : string * string -> bool)
    (l : list (string * string)) :
  (forall v, P (k, v) = true) -> assoc k (List.filter P l) = assoc k l.
Proof.
  intros HP. induction l as [| [k' v] l IH]; [reflexivity |].
  simpl. destruct (String.eqb_spec k k') as [<- | Hne].
  - rewrite HP. simpl. rewrite String.eqb_refl. reflexivity.
  - destruct (P (k', v)); [| exact IH].
    simpl. destruct (String.eqb_spec k k'); [congruence | exact IH].
Qed.

Lemma assoc_filter_drop (k : string) (P : string * string -> bool)
    (l : list (string * string)) :
  (forall v, P (k, v) = false) -> assoc k (List.filter P l) = None.
Proof.
  intros HP. induction l as [| [k' v] l IH]; [reflexivity |].
  simpl. destruct (P (k', v)) eqn:E; [| exact IH].
  simpl. destruct (String.eqb_spec k k') as [<- | Hne]; [| exact IH].
  rewrite HP in E. discriminate.
Qed.

(** A property of [{ ...base, ...over }] is the one of [over] when [over]
    names it, and the one of [base] otherwise. *)
Lemma assoc_spread (k : string) (base over : list (string * string)) :
  assoc k (spread base over)
  = match assoc k over with Some v => Some v | None => assoc k base end.
Proof.
  unfold spread. rewrite assoc_app.
  destruct (assoc k over) as [v |] eqn:E.
  - rewrite assoc_filter_drop; [reflexivity |].
    intros w. simpl. rewrite has_key_assoc, E. reflexivity.
  - rewrite assoc_filter_keep; [destruct (assoc k base); reflexivity |].
    intros w. simpl. rewrite has_key_assoc, E. reflexivity.
Qed.

Lemma assoc_rest_of_None (k : string) (taken : list string)
    (props : list (string * string)) :
  assoc k props = None -> assoc k (rest_of taken props) = None.
Proof.
  intros H. unfold rest_of. induction props as [| [k' v] props IH]; [reflexivity |].
  simpl in H |- *. destruct (String.eqb_spec k k') as [<- | Hne]; [discriminate |].
  destruct (negb _); [| exact (IH H)].
  simpl. destruct (String.eqb_spec k k'); [congruence | exact (IH H)].
Qed.

(** What a computed property becomes under the caller's properties that
    leave it alone. *)
Lemma attr_left_alone (k : string) (taken : list string)
    (base props : list (string * string)) (body : option string) :
  assoc k props = None ->
  attr k (inr (Element (spread base (rest_of taken props)) body)) = assoc k base.
Proof.
  intros H. unfold attr. rewrite assoc_spread, assoc_rest_of_None by exact H.
  reflexivity.
Qed.


(** What the message control shows, in both variants, whenever the field
    hook returns a binding and whatever the caller's properties: see
    [shows]. *)
Theorem message_shows :
  (forall fieldContext itemContext form props f,
     VariantA.useFormField fieldContext itemContext form = inr f ->
     shows (VariantA.FormMessage fieldContext itemContext form props)
       (VariantA.f_error f)) /\
  (forall fieldContext itemContext form f,
     VariantB.useFormField fieldContext itemContext form = inr f ->
     shows (VariantB.FormMessage fieldContext itemContext form) (VariantB.f_error f)).
Proof.
  split; [intros fieldContext itemContext form props f Hf
         | intros fieldContext itemContext form f Hf].
  - unfold shows, VariantA.FormMessage. rewrite Hf. cbn [and_then].
    split; [| split].
    + intros -> children. reflexivity.
    + intros m msgs -> Hm children. destruct m as [| c m]; [congruence |].
      destruct (concat_starts c m msgs) as [r Hr].
      unfold String_of_array. rewrite Hr. reflexivity.
    + intros ->. repeat split. intros [| c children] Hc; [congruence | reflexivity].
  - unfold shows, VariantB.FormMessage. rewrite Hf. cbn [and_then].
    split; [| split].
    + intros -> children. reflexivity.
    + intros m msgs -> Hm children. destruct m as [| c m]; [congruence |].
      destruct (concat_starts c m msgs) as [r Hr].
      unfold String_of_array. rewrite Hr. reflexivity.
    + intros ->. repeat split. intros [| c children] Hc; [congruence | reflexivity].
Qed.

End Bound_controls.

(** ** The two pages *)

Section Pages.

Import JS.


(** The message under the title of the home page after a failed submit. *)
Lemma message_shows_witness :
  text (VariantB.FormMessage {| VariantB.name := Some "title" |}
          {| VariantB.id := Some ":r1:" |}
          (Some (after_failed_submit_and_edit "" "b")) (Some "Required"))
  = Some "String must contain at least 1 character(s)".
Proof.
  destruct message_shows as [_ HB].
  destruct (HB {| VariantB.name := Some "title" |} {| VariantB.id := Some ":r1:" |}
               (Some (after_failed_submit_and_edit "" "b")) _ eq_refl)
    as (_ & Hjoin & _).
  apply (Hjoin "String must contain at least 1 character(s)" []);
    [vm_compute; reflexivity | discriminate].
Defined.

Lemma lower_white_space (c : ascii) : is_white_space c = true -> lower_char c = c.
Proof.
  destruct c as [[] [] [] [] [] [] [] []]; intros H; try discriminate H; reflexivity.
Qed.

Lemma toLowerCase_white_space (ws : string) :
  all_chars is_white_space ws = true -> toLowerCase ws = ws.
Proof.
  induction ws as [| c ws IH]; [reflexivity |]. simpl.
  intros [Hc Hws]%andb_true_iff. rewrite IH, lower_white_space by assumption.
  reflexivity.
Qed.

Lemma toLowerCase_app (a b : string) :
  toLowerCase (a +:+ b) = toLowerCase a +:+ toLowerCase b.
Proof.
  induction a as [| c a IH]; [reflexivity |].
  change (String (lower_char c) (toLowerCase (a +:+ b))
          = String (lower_char c) (toLowerCase a +:+ toLowerCase b)).
  rewrite IH. reflexivity.
Qed.

Lemma trimEnd_white_space (ws : string) :
  all_chars is_white_space ws = true -> trimEnd ws = "".
Proof.
  induction ws as [| c ws IH]; [reflexivity |]. simpl.
  intros [Hc Hws]%andb_true_iff. rewrite IH, Hc by assumption. reflexivity.
Qed.

Lemma trimEnd_app (s ws : string) :
  all_chars is_white_space ws = true -> trimEnd (s +:+ ws) = trimEnd s.
Proof.
  intros Hws. induction s as [| c s IH].
  - apply trimEnd_white_space, Hws.
  - change (trimEnd (String c (s +:+ ws)) = trimEnd (String c s)).
    cbn [trimEnd]. rewrite IH. reflexivity.
Qed.

(** The submit handler of the home page rejects the title 'hello' however
    it is capitalised and however it is padded with white space on either
    side: it throws 'Title is invalid' and shows no success toast. *)
Theorem home_rejects_hello (data : values) (before title after : string) :
  data !! "title" = Some (VStr (before +:+ title +:+ after)) ->
  all_chars is_white_space before = true ->
  all_chars is_white_space after = true ->
  toLowerCase title = "hello" ->
  HomePage.onSubmit data = ([], Thrown (ThrowError (Err "Title is invalid"))).
Proof.
  intros Hdata Hbefore Hafter Htitle. unfold HomePage.onSubmit. rewrite Hdata.
  assert (Htrim : trim (toLowerCase (before +:+ title +:+ after)) = "hello").
  { rewrite !toLowerCase_app, Htitle, !toLowerCase_white_space by assumption.
    unfold trim. rewrite trimStart_white_space by assumption.
    rewrite trimStart_id by reflexivity.
    rewrite trimEnd_app by assumption. reflexivity. }
  rewrite Htrim. reflexivity.
Qed.

(** The title ' HeLLo ' with a tab in front. *)
Lemma home_rejects_hello_witness :
  HomePage.onSubmit
    {[ "title" := VStr (String "009" " HeLLo  "); "content" := VStr "x" ]}
  = ([], Thrown (ThrowError (Err "Title is invalid"))).
Proof.
  apply (home_rejects_hello _ (String "009" " ") "HeLLo" "  "); reflexivity.
Defined.

Lemma string_min_filled (v : option value) :
  filled v = true ->
  exists s, v = Some (VStr s) /\ Zod.string_min 1 v = inr (VStr s).
Proof.
  destruct v as [[[| c s] | n] |]; try discriminate. intros _.
  exists (String c s). split; reflexivity.
Qed.

Lemma string_min_unfilled (v : option value) :
  filled v = false -> exists msg, Zod.string_min 1 v = inl [msg].
Proof.
  destruct v as [[[| c s] | [| z | | negative]] |];
    try discriminate; intros _; eexists; reflexivity.
Qed.

(** What the schema of the home page lets through: when the title and the
    content are both filled, the parsed data are these two fields and no
    other field of the value map; otherwise the submission stops after
    [preventDefault] and the error map marks exactly the fields that are
    not filled. *)
Theorem home_submit_marks_unfilled (st : VariantB.form) :
  (filled (VariantB.formData st !! "title") = true ->
   filled (VariantB.formData st !! "content") = true ->
   exists title content,
     VariantB.formData st !! "title" = Some (VStr title) /\
     VariantB.formData st !! "content" = Some (VStr content) /\
     HomePage.schema (VariantB.formData st)
       = inr {[ "title" := VStr title; "content" := VStr content ]}) /\
  (filled (VariantB.formData st !! "title") = false \/
   filled (VariantB.formData st !! "content") = false ->
   fst (VariantB.handleSubmit HomePage.props st) = [PreventDefault] /\
   forall k,
     is_Some (VariantB.errors (snd (VariantB.handleSubmit HomePage.props st)) !! k) <->
     (k = "title" /\ filled (VariantB.formData st !! "title") = false) \/
     (k = "content" /\ filled (VariantB.formData st !! "content") = false)).
Proof.
  split.
  - intros Ht Hc.
    destruct (string_min_filled _ Ht) as (title & Htitle & Hmt).
    destruct (string_min_filled _ Hc) as (content & Hcontent & Hmc).
    exists title, content. split; [assumption |]. split; [assumption |].
    unfold HomePage.schema, Zod.object.
    cbn [Zod.issues Zod.parsed]. rewrite Hmt, Hmc. reflexivity.
  - intros Hcase.
    unfold VariantB.handleSubmit, VariantB.try_block.
    change (VariantB.schema HomePage.props) with HomePage.schema.
    unfold HomePage.schema, Zod.object. cbn [Zod.issues].
    destruct (filled (VariantB.formData st !! "title")) eqn:Ht;
      destruct (filled (VariantB.formData st !! "content")) eqn:Hc.
    + destruct Hcase; discriminate.
    + destruct (string_min_filled _ Ht) as (title & _ & ->).
      destruct (string_min_unfilled _ Hc) as (msg & ->).
      cbn [map app Zod.flatten fold_right instanceof_ZodError fst snd
           VariantB.setErrors VariantB.errors fieldErrors].
      split; [reflexivity |]. intros k.
      rewrite lookup_insert_is_Some, lookup_empty.
      split.
      * intros [<- | [_ [x Hx]]]; [right; split; reflexivity | discriminate].
      * intros [[_ H] | [-> _]]; [discriminate | left; reflexivity].
    + destruct (string_min_unfilled _ Ht) as (msg & ->).
      destruct (string_min_filled _ Hc) as (content & _ & ->).
      cbn [map app Zod.flatten fold_right instanceof_ZodError fst snd
           VariantB.setErrors VariantB.errors fieldErrors].
      split; [reflexivity |]. intros k.
      rewrite lookup_insert_is_Some, lookup_empty.
      split.
      * intros [<- | [_ [x Hx]]]; [left; split; reflexivity | discriminate].
      * intros [[-> _] | [_ H]]; [left; reflexivity | discriminate].
    + destruct (string_min_unfilled _ Ht) as (msg1 & ->).
      destruct (string_min_unfilled _ Hc) as (msg2 & ->).
      cbn [map app Zod.flatten fold_right instanceof_ZodError fst snd
           VariantB.setErrors VariantB.errors fieldErrors].
      split; [reflexivity |]. intros k.
      rewrite !lookup_insert_is_Some, lookup_empty.
      split.
      * intros [<- | [_ [<- | [_ [x Hx]]]]];
          [left; split; reflexivity | right; split; reflexivity | discriminate].
      * intros [[-> _] | [-> _]]; [left; reflexivity |].
        right. split; [discriminate | left; reflexivity].
Qed.

(** A title typed and the content left empty: only the content is marked;
    and an extra field of the value map does not reach the handler. *)
Lemma home_submit_marks_unfilled_witness :
  (forall k,
     is_Some (VariantB.errors
                (snd (VariantB.handleSubmit HomePage.props
                        (type_in "a" "" (VariantB.mount HomePage.props)))) !! k) <->
     k = "content") /\
  HomePage.schema
    (VariantB.formData
       (VariantB.setValue "draft" (VStr "yes")
          (type_in "a" "b" (VariantB.mount HomePage.props))))
  = inr {[ "title" := VStr "a"; "content" := VStr "b" ]}.
Proof.
  split.
  - destruct (home_submit_marks_unfilled
                (type_in "a" "" (VariantB.mount HomePage.props))) as [_ H].
    destruct H as [_ H]; [right; vm_compute; reflexivity |].
    intros k. rewrite H. split.
    + intros [[_ Hf] | [-> _]]; [vm_compute in Hf; discriminate | reflexivity].
    + intros ->. right. split; [reflexivity | vm_compute; reflexivity].
  - destruct (home_submit_marks_unfilled
                (VariantB.setValue "draft" (VStr "yes")
                   (type_in "a" "b" (VariantB.mount HomePage.props)))) as [H _].
    destruct H as (title & content & Ht & Hc & Hs); [vm_compute; reflexivity .. |].
    rewrite Hs. vm_compute in Ht, Hc.
    injection Ht as <-. injection Hc as <-. reflexivity.
Defined.

(** On the mutation page the state of the mutation decides what the fields
    show: every field group is disabled exactly while the mutation is
    pending; a field has an error exactly when the mutation failed with a
    [ZodError] that names it; any other failure of the mutation, like no
    failure, leaves every field without error, its control valid and its
    message showing only the fallback content, as long as the properties
    passed to the control do not say otherwise. *)
Theorem mutation_page_fields
    (error : option thrown) (pending : bool) (data : values)
    (name useId : string) (type : option string) :
  name <> "" ->
  exists f,
    VariantA.useFormField {| VariantA.name := Some name; VariantA.type := type |}
      (fst (VariantA.FormItem useId
              (Some (VariantA.provide (CreatePostPage.props error pending) data)) []))
      (Some (VariantA.provide (CreatePostPage.props error pending) data)) = inr f /\
    attr "disabled"
      (inr (snd (VariantA.FormItem useId
                   (Some (VariantA.provide (CreatePostPage.props error pending) data))
                   [])))
    = Some (string_of_bool pending) /\
    (forall z, error = Some (ThrowError (ZodErr z)) ->
       VariantA.f_error f = fieldErrors z !! name) /\
    (error = None \/ (exists e, error = Some e /\ instanceof_ZodError e = None) ->
       VariantA.f_error f = None /\
       forall controlProps,
         leaves ["aria-invalid"] controlProps ->
         attr "aria-invalid"
           (VariantA.FormControl {| VariantA.name := Some name; VariantA.type := type |}
              (fst (VariantA.FormItem useId
                      (Some (VariantA.provide (CreatePostPage.props error pending) data))
                      []))
              (Some (VariantA.provide (CreatePostPage.props error pending) data))
              controlProps)
         = Some "false").
Proof.
  intros Hname. destruct name as [| c name]; [congruence |].
  eexists. split; [reflexivity |]. split; [reflexivity |]. split.
  - intros z ->. reflexivity.
  - intros Hcase.
    assert (Herror : VariantA.errors (CreatePostPage.props error pending) = None).
    { destruct Hcase as [-> | (e & -> & He)]; [reflexivity |].
      unfold CreatePostPage.props. simpl. rewrite He. reflexivity. }
    cbn [VariantA.f_error VariantA.ctx_errors VariantA.provide].
    rewrite Herror. split; [reflexivity |].
    intros controlProps Hleaves. apply Forall_cons in Hleaves as [Hleaves _].
    unfold VariantA.FormControl, VariantA.useFormField, VariantA.describedby.
    cbn [falsy VariantA.name and_then VariantA.f_error VariantA.f_type
         VariantA.ctx_errors VariantA.provide].
    rewrite Herror, attr_left_alone by exact Hleaves.
    destruct type; reflexivity.
Qed.

(** The price of the mutation page while the mutation is pending after a
    network failure: disabled, and without error. *)
Lemma mutation_page_fields_witness :
  exists f,
    VariantA.useFormField {| VariantA.name := Some "price"; VariantA.type := Some "number" |}
      (fst (VariantA.FormItem ":r4:"
              (Some (VariantA.provide
                       (CreatePostPage.props (Some (ThrowError (Err "Failed to fetch"))) true)
                       CreatePostPage.defaultValues))
              []))
      (Some (VariantA.provide
               (CreatePostPage.props (Some (ThrowError (Err "Failed to fetch"))) true)
               CreatePostPage.defaultValues)) = inr f /\
    VariantA.f_error f = None.
Proof.
  destruct (mutation_page_fields (Some (ThrowError (Err "Failed to fetch"))) true
              CreatePostPage.defaultValues "price" ":r4:" (Some "number"))
    as (f & Hf & _ & _ & Hnone); [discriminate |].
  exists f. split; [exact Hf |].
  apply Hnone. right. eexists. split; reflexivity.
Defined.

End Pages.
